(** * The OpenVPN status-file plugin of collectd (src/openvpn.c)

    A shallow embedding of the status-file reader: the line tokenizer
    [openvpn_strsplit], the three parsers [single_read], [multi1_read] and
    [multi2_read], and the read callback [openvpn_read] that detects the
    format from the first line.

    C strings are [string]s without NUL, a [FILE] is the text still to be
    read together with its error indicator, [int] and [long long] values
    are [Z], and what the plugin hands to the daemon is the list of value
    lists passed to [plugin_dispatch_values], in order. *)

From Stdlib Require Import ZArith List Bool Ascii String Lia.
Import ListNotations.

Local Open Scope string_scope.
Local Open Scope Z_scope.

(** ** The C library *)

Module Libc.

Definition NUL : ascii := "000"%char.
Definition LF : ascii := "010"%char.
Definition TAB : ascii := "009"%char.

(** The C string held by a char buffer: the bytes before the first NUL. *)
Fixpoint c_str (buf : string) : string :=
  match buf with
  | EmptyString => EmptyString
  | String c buf' => if Ascii.eqb c NUL then EmptyString else String c (c_str buf')
  end.

(** [strcmp a b == 0] *)
Definition strcmp0 (a b : string) : bool := String.eqb a b.

(** [strncmp a b (strlen b) == 0]: [b] is a prefix of [a]. *)
Definition strncmp0 (a b : string) : bool := String.prefix b a.

(** [isspace] in the C locale. *)
Definition isspace (c : ascii) : bool :=
  let n := nat_of_ascii c in
  Nat.eqb n 32 || (Nat.leb 9 n && Nat.leb n 13).

Definition isdigit (c : ascii) : bool :=
  let n := nat_of_ascii c in
  Nat.leb 48 n && Nat.leb n 57.

Definition digit_val (c : ascii) : Z := Z.of_nat (nat_of_ascii c) - 48.

Definition LLONG_MAX : Z := 9223372036854775807.
Definition LLONG_MIN : Z := -9223372036854775808.

(** The value of a sequence that does not fit [long long] is replaced by the
    nearest bound, as [strtoll] does. *)
Definition clamp_ll (z : Z) : Z :=
  if z <? LLONG_MIN then LLONG_MIN
  else if LLONG_MAX <? z then LLONG_MAX
  else z.

Fixpoint skip_space (s : string) : string :=
  match s with
  | EmptyString => EmptyString
  | String c s' => if isspace c then skip_space s' else s
  end.

(** The digits at the head of [s], read in base 10 on top of [acc]. *)
Fixpoint read_digits (acc : Z) (s : string) : Z :=
  match s with
  | EmptyString => acc
  | String c s' => if isdigit c then read_digits (10 * acc + digit_val c) s' else acc
  end.

(** [atoll nptr], that is [strtoll (nptr, NULL, 10)]: white space, an
    optional sign, then decimal digits up to the first other character. *)
Definition atoll (nptr : string) : Z :=
  match skip_space nptr with
  | EmptyString => clamp_ll (read_digits 0 EmptyString)
  | String c s =>
      if Ascii.eqb c "-" then clamp_ll (- read_digits 0 s)
      else if Ascii.eqb c "+" then clamp_ll (read_digits 0 s)
      else clamp_ll (read_digits 0 (String c s))
  end.

(** *** [strtok_r] with a delimiter set *)

Fixpoint is_delim (delim : string) (c : ascii) : bool :=
  match delim with
  | EmptyString => false
  | String d delim' => Ascii.eqb c d || is_delim delim' c
  end.

(** [s + strspn (s, delim)] *)
Fixpoint skip_delims (delim s : string) : string :=
  match s with
  | EmptyString => EmptyString
  | String c s' => if is_delim delim c then skip_delims delim s' else s
  end.

(** The token at the head of [s] and the text after the delimiter that ends
    it (the delimiter is overwritten by NUL, the save pointer is set behind
    it); at the end of the string the save pointer stays on the end. *)
Fixpoint scan_token (delim s : string) : string * string :=
  match s with
  | EmptyString => (EmptyString, EmptyString)
  | String c s' =>
      if is_delim delim c then (EmptyString, s')
      else let (tok, save) := scan_token delim s' in (String c tok, save)
  end.

(** One call of [strtok_r] on the text [s] still to be scanned: [None] is
    the NULL result, otherwise the token and the new save pointer. *)
Definition strtok_r (s delim : string) : option (string * string) :=
  match skip_delims delim s with
  | EmptyString => None
  | s1 => Some (scan_token delim s1)
  end.

(** *** Streams *)

(** A stream opened for reading: the bytes that can still be read, whether
    the read that follows them fails (instead of reporting end-of-file), and
    the stream's error indicator. *)
Record FILE : Set := mkFILE {
  pending : string;
  broken : bool;
  error_ind : bool
}.

Definition ferror (fh : FILE) : bool := error_ind fh.

(** At most [n] bytes, up to and with the first newline. The flag tells that
    the data ran out while [fgets] still wanted a byte. *)
Fixpoint fgets_bytes (n : nat) (s : string) : string * string * bool :=
  match n with
  | O => (EmptyString, s, false)
  | S n' =>
      match s with
      | EmptyString => (EmptyString, EmptyString, true)
      | String c s' =>
          if Ascii.eqb c LF then (String c EmptyString, s', false)
          else let '(l, r, x) := fgets_bytes n' s' in (String c l, r, x)
      end
  end.

(** [fgets (buffer, size, fh)]: the buffer contents on success, [None] for
    NULL (end-of-file with nothing read, or a read error). *)
Definition fgets (size : nat) (fh : FILE) : option string * FILE :=
  let '(l, r, ran_out) := fgets_bytes (size - 1) (pending fh) in
  if ran_out then
    if broken fh then (None, mkFILE EmptyString true true)
    else match l with
         | EmptyString => (None, mkFILE EmptyString false (error_ind fh))
         | _ => (Some l, mkFILE EmptyString false (error_ind fh))
         end
  else (Some l, mkFILE r (broken fh) (error_ind fh)).

End Libc.

Import Libc.

(** ** The daemon's side of the plugin interface *)

(** The constant of plugin.h this file depends on: the size of the name
    arrays of a value list ([sizeof (vl.plugin)] and the like). *)
Class Host : Set := { DATA_MAX_NAME_LEN : nat }.

(** [derive_t] and [gauge_t] values. A gauge is a double; the plugin only
    stores a count of lines in one, which a double holds exactly. *)
Inductive value_t : Set :=
| derive (v : Z)
| gauge (v : Z).

(** The fields of [value_list_t] the plugin fills in before it calls
    [plugin_dispatch_values]; [VALUE_LIST_INIT] leaves the names empty. *)
Record value_list_t : Set := mkVL {
  vl_values : list value_t;
  vl_plugin : string;
  vl_plugin_instance : string;
  vl_type : string;
  vl_type_instance : string
}.

(** Modelled from the spec: [sstrncpy] of utils/common/common.c, which is
    not among the sources. A name longer than its destination is truncated,
    not rejected; the destination of [n] chars keeps room for the final
    NUL. *)
Fixpoint sstrncpy_chars (n : nat) (src : string) : string :=
  match n, src with
  | S n', String c src' => String c (sstrncpy_chars n' src')
  | _, _ => EmptyString
  end.

Definition sstrncpy (src : string) (n : nat) : string :=
  sstrncpy_chars (n - 1) src.

(** A name that is copied only when its pointer is not NULL. *)
Definition copy_opt (src : option string) (n : nat) : string :=
  match src with
  | Some s => sstrncpy s n
  | None => EmptyString
  end.

(** The messages the plugin logs (DEBUG is compiled out). *)
Inductive log_entry : Set :=
| WARNING_fopen_failed (file : string)
| WARNING_failed_to_get_data (file : string)
| NOTICE_unknown_format_instance (name : string)
| NOTICE_unknown_format_file (file : string)
| ERROR_fields_count_mismatch (name : string).

(** What one call of a read function does: its return value, the value
    lists it dispatched, in order, and what it logged. *)
Record outcome : Set := mkOutcome {
  ret : Z;
  dispatched : list value_list_t;
  logged : list log_entry
}.

(** ** src/openvpn.c *)

(** A text followed by the newline that ends its line. *)
Definition ln (s : string) : string := s ++ String LF EmptyString.

Definition TITLE_SINGLE : string := ln "OpenVPN STATISTICS".
Definition TITLE_V1 : string := ln "OpenVPN CLIENT LIST".
Definition TITLE_V2 : string := "TITLE".

Definition V1HEADER : string :=
  ln "Common Name,Real Address,Bytes Received,Bytes Sent,Connected Since".

Record vpn_status_t : Set := mkStatus {
  file : string;
  name : string
}.

(** The four static flags, with their initial values. *)
Record config : Set := mkConfig {
  new_naming_schema : bool;
  collect_compression : bool;
  collect_user_count : bool;
  collect_individual_users : bool
}.

Definition initial_config : config :=
  {| new_naming_schema := false;
     collect_compression := true;
     collect_user_count := false;
     collect_individual_users := true |}.

(** The delimiters of [openvpn_strsplit]: comma and tab. *)
Definition delimiters : string := String "," (String TAB EmptyString).

(** The loop of [openvpn_strsplit]: the token is stored in [fields[i]]
    first, [i] is incremented, and only then compared with [size]. The
    result is [fields[0 .. i)]. *)
Fixpoint strsplit_loop (fuel : nat) (ptr : string) (size i : nat) : list string :=
  match fuel with
  | O => []
  | S fuel' =>
      match strtok_r ptr delimiters with
      | None => []
      | Some (tok, saveptr) =>
          tok :: (if Nat.leb size (S i) then []
                  else strsplit_loop fuel' saveptr size (S i))
      end
  end.

(** Every token takes at least one character, so the length of the string
    bounds the number of iterations. The function returns the number of
    fields, which is the length of this list (at most [max size 1]). *)
Definition openvpn_strsplit (s : string) (size : nat) : list string :=
  strsplit_loop (S (String.length s)) s size 0.

(** [fields[i]] *)
Definition field (fields : list string) (i : Z) : string :=
  nth (Z.to_nat i) fields EmptyString.

Section Submit.
Context {host : Host}.

Definition numusers_submit (pinst tinst : option string) (value : Z) : value_list_t :=
  {| vl_values := [gauge value];
     vl_plugin := sstrncpy "openvpn" DATA_MAX_NAME_LEN;
     vl_type := sstrncpy "users" DATA_MAX_NAME_LEN;
     vl_plugin_instance := copy_opt pinst DATA_MAX_NAME_LEN;
     vl_type_instance := copy_opt tinst DATA_MAX_NAME_LEN |}.

Definition iostats_submit (pinst tinst : option string) (rx tx : Z) : value_list_t :=
  {| vl_values := [derive rx; derive tx];
     vl_plugin := sstrncpy "openvpn" DATA_MAX_NAME_LEN;
     vl_plugin_instance := copy_opt pinst DATA_MAX_NAME_LEN;
     vl_type := sstrncpy "if_octets" DATA_MAX_NAME_LEN;
     vl_type_instance := copy_opt tinst DATA_MAX_NAME_LEN |}.

Definition compression_submit (pinst tinst : option string)
  (uncompressed compressed : Z) : value_list_t :=
  {| vl_values := [derive uncompressed; derive compressed];
     vl_plugin := sstrncpy "openvpn" DATA_MAX_NAME_LEN;
     vl_plugin_instance := copy_opt pinst DATA_MAX_NAME_LEN;
     vl_type := sstrncpy "compression" DATA_MAX_NAME_LEN;
     vl_type_instance := copy_opt tinst DATA_MAX_NAME_LEN |}.

End Submit.

(** *** The line loop *)

(** How the body of a [while (fgets (...) != NULL)] loop ends. *)
Inductive ctl (St R : Type) : Type :=
| Continue (s : St)
| Break (s : St)
| Return (r : R).
Arguments Continue {St R} s.
Arguments Break {St R} s.
Arguments Return {St R} r.

(** How the loop ends: control reaches the statement after it, or the
    function has returned from inside it. *)
Inductive loop_exit (St R : Type) : Type :=
| Leave (s : St)
| Exit (r : R).
Arguments Leave {St R} s.
Arguments Exit {St R} r.

(** [while (fgets (buffer, sizeof (buffer), fh) != NULL) body], with the
    1024 byte buffer every function of the file uses. The body sees the
    buffer as a C string. [None] only when the fuel runs out. *)
Fixpoint while_fgets {St R : Type} (body : St -> string -> ctl St R)
  (fuel : nat) (fh : FILE) (s : St) : option (loop_exit St R * FILE) :=
  match fuel with
  | O => None
  | S fuel' =>
      match fgets 1024 fh with
      | (None, fh') => Some (Leave s, fh')
      | (Some buffer, fh') =>
          match body s (c_str buffer) with
          | Continue s' => while_fgets body fuel' fh' s'
          | Break s' => Some (Leave s', fh')
          | Return r => Some (Exit r, fh')
          end
      end
  end.

(** Each pass takes at least one byte off the stream, so one more than the
    number of pending bytes is fuel enough. *)
Definition read_lines {St R : Type} (body : St -> string -> ctl St R)
  (fh : FILE) (s : St) : option (loop_exit St R * FILE) :=
  while_fgets body (S (String.length (pending fh))) fh s.

(** *** [derive_t] arithmetic *)

(** Modelled from the spec: [derive_t] is declared in plugin.h, which is
    not among the sources; it is the 64-bit counter type, holding what
    [atoll] returns, and its arithmetic wraps around. *)
Definition derive_wrap (z : Z) : Z := (z + 2 ^ 63) mod 2 ^ 64 - 2 ^ 63.

Definition derive_add (a b : Z) : Z := derive_wrap (a + b).
Definition derive_sub (a b : Z) : Z := derive_wrap (a - b).

(** *** [single_read] *)

(** The eight accumulators of [single_read]. *)
Record single_acc : Set := mkSingle {
  link_rx : Z; link_tx : Z;
  tun_rx : Z; tun_tx : Z;
  pre_compress : Z; post_compress : Z;
  pre_decompress : Z; post_decompress : Z
}.

Definition single_init : single_acc := mkSingle 0 0 0 0 0 0 0 0.

Definition set_link_rx (a : single_acc) (v : Z) : single_acc :=
  mkSingle v (link_tx a) (tun_rx a) (tun_tx a)
    (pre_compress a) (post_compress a) (pre_decompress a) (post_decompress a).
Definition set_link_tx (a : single_acc) (v : Z) : single_acc :=
  mkSingle (link_rx a) v (tun_rx a) (tun_tx a)
    (pre_compress a) (post_compress a) (pre_decompress a) (post_decompress a).
Definition set_tun_rx (a : single_acc) (v : Z) : single_acc :=
  mkSingle (link_rx a) (link_tx a) v (tun_tx a)
    (pre_compress a) (post_compress a) (pre_decompress a) (post_decompress a).
Definition set_tun_tx (a : single_acc) (v : Z) : single_acc :=
  mkSingle (link_rx a) (link_tx a) (tun_rx a) v
    (pre_compress a) (post_compress a) (pre_decompress a) (post_decompress a).
Definition set_pre_compress (a : single_acc) (v : Z) : single_acc :=
  mkSingle (link_rx a) (link_tx a) (tun_rx a) (tun_tx a)
    v (post_compress a) (pre_decompress a) (post_decompress a).
Definition set_post_compress (a : single_acc) (v : Z) : single_acc :=
  mkSingle (link_rx a) (link_tx a) (tun_rx a) (tun_tx a)
    (pre_compress a) v (pre_decompress a) (post_decompress a).
Definition set_pre_decompress (a : single_acc) (v : Z) : single_acc :=
  mkSingle (link_rx a) (link_tx a) (tun_rx a) (tun_tx a)
    (pre_compress a) (post_compress a) v (post_decompress a).
Definition set_post_decompress (a : single_acc) (v : Z) : single_acc :=
  mkSingle (link_rx a) (link_tx a) (tun_rx a) (tun_tx a)
    (pre_compress a) (post_compress a) (pre_decompress a) v.

(** The body of the loop: lines that do not have two fields are skipped, a
    known key stores the number that follows it. *)
Definition single_body (a : single_acc) (buffer : string) : ctl single_acc outcome :=
  let fields := openvpn_strsplit buffer 4 in
  let fields_num := Z.of_nat (List.length fields) in
  if negb (fields_num =? 2) then Continue a
  else if strcmp0 (field fields 0) "TUN/TAP read bytes" then
    Continue (set_tun_tx a (atoll (field fields 1)))
  else if strcmp0 (field fields 0) "TUN/TAP write bytes" then
    Continue (set_tun_rx a (atoll (field fields 1)))
  else if strcmp0 (field fields 0) "TCP/UDP read bytes" then
    Continue (set_link_rx a (atoll (field fields 1)))
  else if strcmp0 (field fields 0) "TCP/UDP write bytes" then
    Continue (set_link_tx a (atoll (field fields 1)))
  else if strcmp0 (field fields 0) "pre-compress bytes" then
    Continue (set_pre_compress a (atoll (field fields 1)))
  else if strcmp0 (field fields 0) "post-compress bytes" then
    Continue (set_post_compress a (atoll (field fields 1)))
  else if strcmp0 (field fields 0) "pre-decompress bytes" then
    Continue (set_pre_decompress a (atoll (field fields 1)))
  else if strcmp0 (field fields 0) "post-decompress bytes" then
    Continue (set_post_decompress a (atoll (field fields 1)))
  else Continue a.

Definition overhead_rx (a : single_acc) : Z :=
  derive_sub (derive_add (derive_sub (link_rx a) (pre_decompress a))
                         (post_decompress a))
             (tun_rx a).

Definition overhead_tx (a : single_acc) : Z :=
  derive_sub (derive_add (derive_sub (link_tx a) (post_compress a))
                         (pre_compress a))
             (tun_tx a).

Section Readers.
Context {host : Host}.
Variable cfg : config.

(** What [single_read] does after its loop. The stream's error indicator is
    not looked at. *)
Definition single_finish (name : string) (a : single_acc) : outcome :=
  {| ret := 0;
     dispatched :=
       ([iostats_submit (Some name) (Some "traffic") (link_rx a) (link_tx a);
         iostats_submit (Some name) (Some "overhead") (overhead_rx a) (overhead_tx a)]
        ++ (if collect_compression cfg then
              [compression_submit (Some name) (Some "data_in")
                 (post_decompress a) (pre_decompress a);
               compression_submit (Some name) (Some "data_out")
                 (pre_compress a) (post_compress a)]
            else []))%list;
     logged := [] |}.

Definition single_read (name : string) (fh : FILE) : option outcome :=
  match read_lines single_body fh single_init with
  | None => None
  | Some (Exit r, _) => Some r
  | Some (Leave a, _) => Some (single_finish name a)
  end.

(** *** [multi1_read] *)

(** The locals of [multi1_read] that live across lines, and the value
    lists dispatched so far. *)
Record multi1_state : Set := mkMulti1 {
  m1_sum_users : Z;
  m1_found_header : bool;
  m1_out : list value_list_t
}.

Definition multi1_init : multi1_state := mkMulti1 0 false [].

(** The value list of one client row, by naming schema. *)
Definition client_submit (name cname : string) (rx tx : Z) : value_list_t :=
  if new_naming_schema cfg then iostats_submit (Some name) (Some cname) rx tx
  else iostats_submit (Some cname) None rx tx.

Definition multi1_body (name : string) (s : multi1_state) (buffer : string)
  : ctl multi1_state outcome :=
  if strcmp0 buffer (ln "ROUTING TABLE") then Break s
  else if strcmp0 buffer V1HEADER then
    Continue (mkMulti1 (m1_sum_users s) true (m1_out s))
  else if negb (m1_found_header s) then Continue s
  else
    let fields := openvpn_strsplit buffer 10 in
    let fields_num := Z.of_nat (List.length fields) in
    if fields_num <? 4 then Continue s
    else
      let sum_users :=
        if collect_user_count cfg then m1_sum_users s + 1 else m1_sum_users s in
      let out :=
        if collect_individual_users cfg then
          (m1_out s ++ [client_submit name (field fields 0)
                          (atoll (field fields 2)) (atoll (field fields 3))])%list
        else m1_out s in
      Continue (mkMulti1 sum_users (m1_found_header s) out).

Definition multi1_finish (name : string) (s : multi1_state) (fh : FILE) : outcome :=
  if ferror fh then mkOutcome (-1) (m1_out s) []
  else if negb (m1_found_header s) then
    mkOutcome (-1) (m1_out s) [NOTICE_unknown_format_instance name]
  else
    mkOutcome 0
      (m1_out s ++ (if collect_user_count cfg then
                      [numusers_submit (Some name) (Some name) (m1_sum_users s)]
                    else []))%list
      [].

Definition multi1_read (name : string) (fh : FILE) : option outcome :=
  match read_lines (multi1_body name) fh multi1_init with
  | None => None
  | Some (Exit r, _) => Some r
  | Some (Leave s, fh') => Some (multi1_finish name s fh')
  end.

(** *** [multi2_read] *)

Record multi2_state : Set := mkMulti2 {
  m2_sum_users : Z;
  m2_found_header : bool;
  idx_cname : Z;
  idx_bytes_recv : Z;
  idx_bytes_sent : Z;
  columns : Z;
  m2_out : list value_list_t
}.

Definition multi2_init : multi2_state := mkMulti2 0 false 0 0 0 0 [].

(** [for (int i = 2; i < fields_num; i++)] over the header's fields: [rest]
    is [fields[i ..]], the triple holds the three column indexes. *)
Fixpoint header_columns (rest : list string) (i : Z) (idx : Z * Z * Z) : Z * Z * Z :=
  match rest with
  | [] => idx
  | f :: rest' =>
      let '(cname, recv, sent) := idx in
      header_columns rest' (i + 1)
        (if strcmp0 f "Common Name" then (i - 1, recv, sent)
         else if strcmp0 f "Bytes Received" then (cname, i - 1, sent)
         else if strcmp0 f "Bytes Sent" then (cname, recv, i - 1)
         else idx)
  end.

Definition multi2_body (name : string) (s : multi2_state) (buffer : string)
  : ctl multi2_state outcome :=
  let fields := openvpn_strsplit buffer 20 in
  let fields_num := Z.of_nat (List.length fields) in
  if negb (m2_found_header s) then
    if fields_num <? 2 then Continue s
    else if negb (strcmp0 (field fields 0) "HEADER") then Continue s
    else if negb (strcmp0 (field fields 1) "CLIENT_LIST") then Continue s
    else
      let '(cname, recv, sent) :=
        header_columns (skipn 2 fields) 2
          (idx_cname s, idx_bytes_recv s, idx_bytes_sent s) in
      if (cname =? 0) || (recv =? 0) || (sent =? 0) then
        Break (mkMulti2 (m2_sum_users s) false cname recv sent (columns s) (m2_out s))
      else
        Continue (mkMulti2 (m2_sum_users s) true cname recv sent
                    (fields_num - 1) (m2_out s))
  else if (fields_num =? 0) || negb (strcmp0 (field fields 0) "CLIENT_LIST") then
    Break s
  else if negb (fields_num =? columns s) then
    Return (mkOutcome (-1) (m2_out s) [ERROR_fields_count_mismatch name])
  else
    let sum_users :=
      if collect_user_count cfg then m2_sum_users s + 1 else m2_sum_users s in
    let out :=
      if collect_individual_users cfg then
        (m2_out s ++ [client_submit name (field fields (idx_cname s))
                        (atoll (field fields (idx_bytes_recv s)))
                        (atoll (field fields (idx_bytes_sent s)))])%list
      else m2_out s in
    Continue (mkMulti2 sum_users true (idx_cname s) (idx_bytes_recv s)
                (idx_bytes_sent s) (columns s) out).

Definition multi2_finish (name : string) (s : multi2_state) (fh : FILE) : outcome :=
  if ferror fh then mkOutcome (-1) (m2_out s) []
  else if negb (m2_found_header s) then
    mkOutcome (-1) (m2_out s) [NOTICE_unknown_format_instance name]
  else
    mkOutcome 0
      (m2_out s ++ (if collect_user_count cfg then
                      [numusers_submit (Some name) (Some name) (m2_sum_users s)]
                    else []))%list
      [].

Definition multi2_read (name : string) (fh : FILE) : option outcome :=
  match read_lines (multi2_body name) fh multi2_init with
  | None => None
  | Some (Exit r, _) => Some r
  | Some (Leave s, fh') => Some (multi2_finish name s fh')
  end.

(** *** [openvpn_read] *)

(** [fopen (path, "r")] on the files of the machine: a fresh stream at the
    start of the file, or NULL. *)
Definition filesystem : Set := string -> option FILE.

Definition openvpn_read (fopen : filesystem) (st : vpn_status_t) : option outcome :=
  match fopen (file st) with
  | None => Some (mkOutcome (-1) [] [WARNING_fopen_failed (file st)])
  | Some fh =>
      match fgets 1024 fh with
      | (None, _) => Some (mkOutcome (-1) [] [WARNING_failed_to_get_data (file st)])
      | (Some buffer, fh') =>
          if strcmp0 (c_str buffer) TITLE_SINGLE then single_read (name st) fh'
          else if strcmp0 (c_str buffer) TITLE_V1 then multi1_read (name st) fh'
          else if strncmp0 (c_str buffer) TITLE_V2 then multi2_read (name st) fh'
          else Some (mkOutcome (-1) [] [NOTICE_unknown_format_file (file st)])
      end
  end.

End Readers.

(** *** The plugin inside the daemon *)

(** What the read callback can see or change between two calls: the static
    flags, the files, and what the daemon has received so far. *)
Record world : Set := mkWorld {
  flags : config;
  files : filesystem;
  received : list value_list_t;
  messages : list log_entry
}.

(** One call of the read callback registered for [st]: the flags and the
    files are only read, the daemon gets what the call dispatched. *)
Definition read_cycle {host : Host} (st : vpn_status_t) (w : world) : option (Z * world) :=
  match openvpn_read (flags w) (files w) st with
  | None => None
  | Some o =>
      Some (ret o,
            {| flags := flags w;
               files := files w;
               received := (received w ++ dispatched o)%list;
               messages := (messages w ++ logged o)%list |})
  end.

(** ** Auxiliary notions for the statements *)

(** The first [k] passes of a line loop, none of which leaves the loop: the
    stream and the state before pass [k + 1]. *)
Fixpoint iterate_lines {St R : Type} (body : St -> string -> ctl St R)
  (k : nat) (fh : FILE) (s : St) : option (FILE * St) :=
  match k with
  | O => Some (fh, s)
  | S k' =>
      match fgets 1024 fh with
      | (Some buffer, fh') =>
          match body s (c_str buffer) with
          | Continue s' => iterate_lines body k' fh' s'
          | _ => None
          end
      | (None, _) => None
      end
  end.

(** Every character of [s] satisfies [p]. *)
Fixpoint all_chars (p : ascii -> bool) (s : string) : bool :=
  match s with
  | EmptyString => true
  | String c s' => p c && all_chars p s'
  end.



(** The number a string of decimal digits denotes. *)
Definition decimal_value (digits : string) : Z :=
  fold_left (fun acc c => 10 * acc + digit_val c) (list_ascii_of_string digits) 0.

(** The tokenizer as the specification words it: cut the line at every
    comma and tab, drop the empty pieces, keep the first [N]. *)
Fixpoint split_at_delims (s : string) : list string :=
  match s with
  | EmptyString => [EmptyString]
  | String c s' =>
      if is_delim delimiters c then EmptyString :: split_at_delims s'
      else match split_at_delims s' with
           | [] => [String c EmptyString]
           | t :: ts => String c t :: ts
           end
  end.

Definition nonempty (s : string) : bool := negb (String.eqb s EmptyString).

Definition spec_tokenize (s : string) (N : nat) : list string :=
  firstn N (filter nonempty (split_at_delims s)).


(** A stream at the start of a file with the given content, which ends in
    a plain end-of-file. *)
Definition stream_of (content : string) : FILE := mkFILE content false false.

(** A daemon whose names hold 128 bytes, to run the readers on examples. *)
Definition host128 : Host := {| DATA_MAX_NAME_LEN := 128 |}.

(** ** Configuration: [openvpn_config] and [openvpn_init] *)

(** [tolower] in the C locale. *)
Definition tolower (c : ascii) : ascii :=
  let n := nat_of_ascii c in
  if Nat.leb 65 n && Nat.leb n 90 then ascii_of_nat (n + 32) else c.

Fixpoint lower_case (s : string) : string :=
  match s with
  | EmptyString => EmptyString
  | String c s' => String (tolower c) (lower_case s')
  end.

(** [strcasecmp a b == 0] *)
Definition strcasecmp0 (a b : string) : bool :=
  String.eqb (lower_case a) (lower_case b).

(** [strrchr (s, c)] for a character other than NUL: the part of [s] that
    starts at the last [c], or [None] for NULL. *)
Fixpoint strrchr (s : string) (c : ascii) : option string :=
  match s with
  | EmptyString => None
  | String x s' =>
      match strrchr s' c with
      | Some r => Some r
      | None => if Ascii.eqb x c then Some s else None
      end
  end.

(** [snprintf (buf, size, "%s%s", a, b)]: what fits the buffer with its
    final NUL. *)
Definition snprintf2 (size : nat) (a b : string) : string :=
  String.substring 0 (size - 1) (a ++ b).

Definition config_keys : list string :=
  ["StatusFile"; "Compression";
   "ImprovedNamingSchema"; "CollectCompression";
   "CollectUserCount"; "CollectIndividualUsers"].

Definition config_keys_num : Z := Z.of_nat (List.length config_keys).

(** What [openvpn_config] takes from the daemon's headers and from the
    daemon itself, none of it among the sources: the macros [IS_TRUE] and
    [IS_FALSE], the value of [EINVAL], and the registration of a read
    callback, which changes the daemon's list of callbacks and returns a
    status. *)
Class Daemon : Type := {
  registry : Type;
  plugin_register_complex_read :
    string -> string -> vpn_status_t -> registry -> Z * registry;
  IS_TRUE : string -> bool;
  IS_FALSE : string -> bool;
  EINVAL : Z
}.

(** Whether [strdup] and [calloc] find memory during one call. *)
Record allocation : Set := mkAlloc {
  strdup_ok : bool;
  calloc_ok : bool
}.

(** What [openvpn_config] logs. *)
Inductive config_log : Set :=
| ERROR_strdup_failed
| ERROR_malloc_failed
| WARNING_filename_already_used (status_name : string).

Section Configuration.
Context {host : Host} {daemon : Daemon}.

(** The static flags and the daemon's callbacks. *)
Record plugin_state : Type := mkPlugin {
  plugin_flags : config;
  plugin_callbacks : registry
}.

Definition set_new_naming_schema (c : config) (b : bool) : config :=
  mkConfig b (collect_compression c) (collect_user_count c)
    (collect_individual_users c).
Definition set_collect_compression (c : config) (b : bool) : config :=
  mkConfig (new_naming_schema c) b (collect_user_count c)
    (collect_individual_users c).
Definition set_collect_user_count (c : config) (b : bool) : config :=
  mkConfig (new_naming_schema c) (collect_compression c) b
    (collect_individual_users c).
Definition set_collect_individual_users (c : config) (b : bool) : config :=
  mkConfig (new_naming_schema c) (collect_compression c)
    (collect_user_count c) b.

(** The name of a status file: what follows its last slash, or all of it. *)
Definition status_name_of (status_file : string) : string :=
  match strrchr status_file "/" with
  | None => status_file
  | Some EmptyString => EmptyString
  | Some (String _ after) => after
  end.

Definition openvpn_config (mem : allocation) (key value : string)
  (p : plugin_state) : Z * plugin_state * list config_log :=
  if strcasecmp0 "StatusFile" key then
    if negb (strdup_ok mem) then (1, p, [ERROR_strdup_failed])
    else
      let status_file := value in
      let status_name := status_name_of status_file in
      if negb (calloc_ok mem) then (1, p, [ERROR_malloc_failed])
      else
        let instance := mkStatus status_file status_name in
        let callback_name :=
          snprintf2 (3 * DATA_MAX_NAME_LEN) "openvpn/" status_name in
        let (status, callbacks) :=
          plugin_register_complex_read "openvpn" callback_name instance
            (plugin_callbacks p) in
        if status =? EINVAL then
          (-1, mkPlugin (plugin_flags p) callbacks,
           [WARNING_filename_already_used status_name])
        else (0, mkPlugin (plugin_flags p) callbacks, [])
  else if strcasecmp0 "CollectCompression" key || strcasecmp0 "Compression" key then
    (0, mkPlugin (set_collect_compression (plugin_flags p)
                    (if IS_FALSE value then false else true))
          (plugin_callbacks p), [])
  else if strcasecmp0 "ImprovedNamingSchema" key then
    (0, mkPlugin (set_new_naming_schema (plugin_flags p)
                    (if IS_TRUE value then true else false))
          (plugin_callbacks p), [])
  else if strcasecmp0 "CollectUserCount" key then
    (0, mkPlugin (set_collect_user_count (plugin_flags p)
                    (if IS_TRUE value then true else false))
          (plugin_callbacks p), [])
  else if strcasecmp0 "CollectIndividualUsers" key then
    (0, mkPlugin (set_collect_individual_users (plugin_flags p)
                    (if IS_FALSE value then false else true))
          (plugin_callbacks p), [])
  else (-1, p, []).

End Configuration.

Definition openvpn_init (c : config) : Z :=
  if negb (collect_individual_users c) && negb (collect_compression c)
     && negb (collect_user_count c)
  then -1 else 0.

(** A daemon to run the configuration on examples: its callbacks are a list
    of names, a name that is in the list is refused with [EINVAL], and the
    truth values are the words the daemon's headers accept. *)
Definition list_daemon : Daemon :=
  {| registry := list string;
     plugin_register_complex_read := fun _ callback_name _ names =>
       if existsb (String.eqb callback_name) names then (22, names)
       else (0, callback_name :: names);
     IS_TRUE := fun s =>
       strcasecmp0 "true" s || strcasecmp0 "yes" s || strcasecmp0 "on" s;
     IS_FALSE := fun s =>
       strcasecmp0 "false" s || strcasecmp0 "no" s || strcasecmp0 "off" s;
     EINVAL := 22 |}.

(** ** Further notions for the statements *)

(** A line that [fgets] reads whole: no newline inside, and with its
    newline it fits the buffer. *)
Definition plain_line (l : string) : bool :=
  all_chars (fun c => negb (Ascii.eqb c LF)) l && Nat.ltb (String.length l) 1023.

(** The file that consists of the given lines, each ended by a newline. *)
Fixpoint concat_lines (ls : list string) : string :=
  match ls with
  | [] => EmptyString
  | l :: ls' => ln l ++ concat_lines ls'
  end.

(** The state after the body of a loop has run on each of the lines, when
    none of them leaves the loop. *)
Fixpoint run_lines {St R : Type} (body : St -> string -> ctl St R)
  (ls : list string) (s : St) : option St :=
  match ls with
  | [] => Some s
  | l :: ls' =>
      match body s (c_str (ln l)) with
      | Continue s' => run_lines body ls' s'
      | _ => None
      end
  end.

(** The position of the last occurrence of [key] in [l]. *)
Fixpoint last_index (key : string) (l : list string) : option nat :=
  match l with
  | [] => None
  | x :: l' =>
      match last_index key l' with
      | Some n => Some (S n)
      | None => if String.eqb x key then Some O else None
      end
  end.

(** The value that the last line with the given key carries, for the
    single-endpoint format. *)
Fixpoint last_value (key : string) (ls : list string) : option string :=
  match ls with
  | [] => None
  | l :: ls' =>
      match last_value key ls' with
      | Some v => Some v
      | None =>
          match openvpn_strsplit (c_str (ln l)) 4 with
          | [k; v] => if String.eqb k key then Some v else None
          | _ => None
          end
      end
  end.

(** The keys of the single-endpoint format with the accumulator each one
    is read into. *)
Definition single_counters : list (string * (single_acc -> Z)) :=
  [("TUN/TAP read bytes", tun_tx);
   ("TUN/TAP write bytes", tun_rx);
   ("TCP/UDP read bytes", link_rx);
   ("TCP/UDP write bytes", link_tx);
   ("pre-compress bytes", pre_compress);
   ("post-compress bytes", post_compress);
   ("pre-decompress bytes", pre_decompress);
   ("post-decompress bytes", post_decompress)].

(** A value of the 64-bit counter type. *)
Definition in_derive_range (v : Z) : Prop := LLONG_MIN <= v <= LLONG_MAX.

(** The value lists the plugin is meant to dispatch: two counters of type
    if_octets or compression, or one gauge of type users that is a count;
    the plugin is always openvpn. *)
Definition well_formed_value_list {host : Host} (vl : value_list_t) : Prop :=
  vl_plugin vl = sstrncpy "openvpn" DATA_MAX_NAME_LEN /\
  ((exists rx tx,
      vl_values vl = [derive rx; derive tx] /\
      in_derive_range rx /\ in_derive_range tx /\
      (vl_type vl = sstrncpy "if_octets" DATA_MAX_NAME_LEN \/
       vl_type vl = sstrncpy "compression" DATA_MAX_NAME_LEN)) \/
   (exists n,
      vl_values vl = [gauge n] /\ 0 <= n /\
      vl_type vl = sstrncpy "users" DATA_MAX_NAME_LEN)).

(** All eight accumulators of [single_read] hold values of the counter
    type. *)
Definition acc_in_range (a : single_acc) : Prop :=
  in_derive_range (link_rx a) /\ in_derive_range (link_tx a) /\
  in_derive_range (tun_rx a) /\ in_derive_range (tun_tx a) /\
  in_derive_range (pre_compress a) /\ in_derive_range (post_compress a) /\
  in_derive_range (pre_decompress a) /\ in_derive_range (post_decompress a).

(** A client row of the version 1 list: a plain line that is neither the
    header nor the ROUTING TABLE mark and has at least four fields. *)
Definition v1_row (r : string) : bool :=
  plain_line r
  && negb (strcmp0 (c_str (ln r)) (ln "ROUTING TABLE"))
  && negb (strcmp0 (c_str (ln r)) V1HEADER)
  && Nat.leb 4 (List.length (openvpn_strsplit (c_str (ln r)) 10)).

(** The value list that [multi1_read] dispatches for a client row. *)
Definition v1_row_sample {host : Host} (cfg : config) (name r : string)
  : value_list_t :=
  let fields := openvpn_strsplit (c_str (ln r)) 10 in
  client_submit cfg name (field fields 0)
    (atoll (field fields 2)) (atoll (field fields 3)).

(** What holds of the samples and of the count of [multi1_read] after any
    number of lines: no sample before the header, only value lists of the
    expected form, as many as rows were counted, and none when the samples
    per client are switched off. *)
Definition multi1_inv {host : Host} (cfg : config) (s : multi1_state) : Prop :=
  (m1_found_header s = false -> m1_out s = []) /\
  0 <= m1_sum_users s /\
  Forall well_formed_value_list (m1_out s) /\
  (collect_user_count cfg = true -> collect_individual_users cfg = true ->
   m1_sum_users s = Z.of_nat (List.length (m1_out s))) /\
  (collect_individual_users cfg = false -> m1_out s = []).

(** The same for [multi2_read]. *)
Definition multi2_inv {host : Host} (cfg : config) (s : multi2_state) : Prop :=
  (m2_found_header s = false -> m2_out s = []) /\
  0 <= m2_sum_users s /\
  Forall well_formed_value_list (m2_out s) /\
  (collect_user_count cfg = true -> collect_individual_users cfg = true ->
   m2_sum_users s = Z.of_nat (List.length (m2_out s))) /\
  (collect_individual_users cfg = false -> m2_out s = []).

(** The index in a data row of the column that the header names [key]:
    one more than the position of its last occurrence among the columns
    behind HEADER and CLIENT_LIST, and 0 when the header does not name it. *)
Definition column_index (key : string) (cols : list string) : Z :=
  match last_index key cols with
  | Some p => Z.of_nat p + 1
  | None => 0
  end.



(** A value list without its two instance names. *)
Definition unnamed (vl : value_list_t) : list value_t * string * string :=
  (vl_values vl, vl_plugin vl, vl_type vl).

(** ** Lines written out field by field *)














(** ** Properties of the C library model *)

Lemma fgets_bytes_le (n : nat) : forall s l r x,
  fgets_bytes n s = (l, r, x) -> (String.length r <= String.length s)%nat.
Proof.
  induction n as [|n IH]; intros s l r x H; simpl in H.
  - inversion H; subst; lia.
  - destruct s as [|c s'].
    + inversion H; subst; simpl; lia.
    + destruct (Ascii.eqb c LF).
      * inversion H; subst; simpl; lia.
      * destruct (fgets_bytes n s') as [[l' r'] x'] eqn:E.
        inversion H; subst. apply IH in E. simpl; lia.
Qed.

Lemma fgets_bytes_lt (n : nat) (c : ascii) (s l r : string) (x : bool) :
  fgets_bytes (S n) (String c s) = (l, r, x) ->
  (String.length r < String.length (String c s))%nat /\ l <> EmptyString.
Proof.
  simpl. destruct (Ascii.eqb c LF).
  - intros H; inversion H; subst; simpl; split; [lia | discriminate].
  - destruct (fgets_bytes n s) as [[l' r'] x'] eqn:E.
    intros H; inversion H; subst. apply fgets_bytes_le in E.
    simpl; split; [lia | discriminate].
Qed.

(** A successful [fgets] takes at least one byte off the stream. *)
Lemma fgets_shrinks (fh fh' : FILE) (buffer : string) :
  fgets 1024 fh = (Some buffer, fh') ->
  (String.length (pending fh') < String.length (pending fh))%nat.
Proof.
  unfold fgets. change (1024 - 1)%nat with (S 1022).
  destruct (pending fh) as [|c s] eqn:P.
  - simpl. destruct (broken fh); discriminate.
  - destruct (fgets_bytes (S 1022) (String c s)) as [[l r] x] eqn:E.
    apply fgets_bytes_lt in E. destruct E as [Hlt Hne].
    destruct x.
    + destruct (broken fh); [discriminate|].
      destruct l; [congruence|]. intros H; inversion H; subst; simpl. lia.
    + intros H; inversion H; subst; simpl. exact Hlt.
Qed.

(** [fgets] never clears the error indicator and sets it only at a read
    that fails. *)
Lemma fgets_some_error_ind (fh fh' : FILE) (buffer : string) :
  fgets 1024 fh = (Some buffer, fh') -> error_ind fh' = error_ind fh.
Proof.
  unfold fgets. destruct (fgets_bytes (1024 - 1) (pending fh)) as [[l r] x].
  destruct x.
  - destruct (broken fh); [discriminate|]. destruct l; [discriminate|].
    intros H; inversion H; reflexivity.
  - intros H; inversion H; reflexivity.
Qed.

(** The first line of a file, when it fits the buffer, is read whole and
    with its newline, and the stream is left at the start of the next. *)
Lemma fgets_bytes_line (l rest : string) : forall n,
  all_chars (fun c => negb (Ascii.eqb c LF)) l = true ->
  (String.length l < n)%nat ->
  fgets_bytes n (ln l ++ rest) = (ln l, rest, false).
Proof.
  induction l as [|c l IH]; intros n Hl Hn; simpl in *.
  - destruct n; [lia|]. reflexivity.
  - destruct n; [lia|]. simpl.
    apply andb_prop in Hl. destruct Hl as [Hc Hl].
    apply negb_true_iff in Hc. rewrite Hc.
    unfold ln in IH. rewrite (IH n Hl ltac:(lia)). reflexivity.
Qed.

Lemma fgets_line (l rest : string) (b e : bool) :
  all_chars (fun c => negb (Ascii.eqb c LF)) l = true ->
  (String.length l < 1023)%nat ->
  fgets 1024 (mkFILE (ln l ++ rest) b e) = (Some (ln l), mkFILE rest b e).
Proof.
  intros Hl Hn. unfold fgets. cbn [pending broken error_ind].
  change (1024 - 1)%nat with 1023%nat.
  rewrite (fgets_bytes_line l rest 1023 Hl Hn). reflexivity.
Qed.

(** ** Properties of the line loop *)

Section LineLoop.
Variables St R : Type.
Variable body : St -> string -> ctl St R.

(** With more fuel than pending bytes the loop ends. *)
Lemma while_fgets_total (fuel : nat) : forall fh s,
  (String.length (pending fh) < fuel)%nat ->
  exists e fh', while_fgets body fuel fh s = Some (e, fh').
Proof.
  induction fuel as [|fuel IH]; intros fh s Hlen; [lia|].
  simpl. destruct (fgets 1024 fh) as [[buffer|] fh'] eqn:G.
  - destruct (body s (c_str buffer)) as [s'|s'|r].
    + apply IH. apply fgets_shrinks in G. lia.
    + eauto.
    + eauto.
  - eauto.
Qed.

(** Once the loop has ended, more fuel changes nothing. *)
Lemma while_fgets_more_fuel (fuel : nat) : forall fh s res fuel',
  while_fgets body fuel fh s = Some res ->
  (fuel <= fuel')%nat ->
  while_fgets body fuel' fh s = Some res.
Proof.
  induction fuel as [|fuel IH]; intros fh s res fuel' H Hle; [discriminate|].
  destruct fuel' as [|fuel']; [lia|].
  simpl in *. destruct (fgets 1024 fh) as [[buffer|] fh1]; [|exact H].
  destruct (body s (c_str buffer)); try exact H.
  apply IH; [exact H | lia].
Qed.

Lemma read_lines_total (fh : FILE) (s : St) :
  exists e fh', read_lines body fh s = Some (e, fh').
Proof. apply while_fgets_total. lia. Qed.

(** The loop with any sufficient amount of fuel is [read_lines]. *)
Lemma while_fgets_read_lines (fuel : nat) (fh : FILE) (s : St) :
  (String.length (pending fh) < fuel)%nat ->
  while_fgets body fuel fh s = read_lines body fh s.
Proof.
  intros Hlen. destruct (read_lines_total fh s) as (e & fh' & E).
  rewrite E. apply (while_fgets_more_fuel _ _ _ _ _ E). lia.
Qed.

(** One pass of the loop. *)
Lemma read_lines_step (fh : FILE) (s : St) :
  read_lines body fh s =
  match fgets 1024 fh with
  | (None, fh') => Some (Leave s, fh')
  | (Some buffer, fh') =>
      match body s (c_str buffer) with
      | Continue s' => read_lines body fh' s'
      | Break s' => Some (Leave s', fh')
      | Return r => Some (Exit r, fh')
      end
  end.
Proof.
  unfold read_lines at 1. simpl.
  destruct (fgets 1024 fh) as [[buffer|] fh'] eqn:G; [|reflexivity].
  destruct (body s (c_str buffer)); try reflexivity.
  apply while_fgets_read_lines. apply fgets_shrinks in G. lia.
Qed.

(** Passes that all continue can be run ahead of the loop. *)
Lemma read_lines_iterate (k : nat) : forall fh s fh1 s1,
  iterate_lines body k fh s = Some (fh1, s1) ->
  read_lines body fh s = read_lines body fh1 s1.
Proof.
  induction k as [|k IH]; intros fh s fh1 s1 H; simpl in H.
  - inversion H; reflexivity.
  - rewrite read_lines_step.
    destruct (fgets 1024 fh) as [[buffer|] fh'] eqn:G; [|discriminate].
    destruct (body s (c_str buffer)); try discriminate.
    apply IH. exact H.
Qed.

(** A body that never leaves the loop runs it to the end of the stream. *)
Lemma while_fgets_continue (fuel : nat) : forall fh s e fh',
  (forall s0 buffer, exists s1, body s0 buffer = Continue s1) ->
  while_fgets body fuel fh s = Some (e, fh') ->
  exists s', e = Leave s'.
Proof.
  induction fuel as [|fuel IH]; intros fh s e fh' Hc H; [discriminate|].
  simpl in H. destruct (fgets 1024 fh) as [[buffer|] fh1].
  - destruct (Hc s (c_str buffer)) as [s1 E]. rewrite E in H.
    eapply IH; eauto.
  - inversion H; eauto.
Qed.

End LineLoop.
Arguments read_lines_step {St R}.
Arguments read_lines_iterate {St R}.
Arguments read_lines_total {St R}.
Arguments while_fgets_continue {St R}.

(** ** Properties of the tokenizer *)

(** The token [scan_token] cuts off is the first piece of the line, and the
    save pointer is where the remaining pieces start. *)
Lemma scan_token_split (s : string) : forall tok save,
  scan_token delimiters s = (tok, save) ->
  (String.length save <= String.length s)%nat /\
  exists ts, split_at_delims s = tok :: ts /\
             filter nonempty ts = filter nonempty (split_at_delims save).
Proof.
  induction s as [|c s IH]; intros tok save H.
  - simpl in H. inversion H; subst. split; [simpl; lia|].
    exists []. split; reflexivity.
  - cbn [scan_token] in H. cbn [split_at_delims].
    destruct (is_delim delimiters c) eqn:D.
    + inversion H; subst. split; [simpl; lia|].
      exists (split_at_delims save). split; reflexivity.
    + destruct (scan_token delimiters s) as [t sv] eqn:E.
      inversion H; subst.
      destruct (IH t save eq_refl) as (Hlen & ts & Hs & Hf).
      split; [simpl; lia|].
      rewrite Hs. exists ts. split; [reflexivity | exact Hf].
Qed.

(** [strtok_r] finds no token exactly when no piece of the line is
    non-empty, and otherwise returns the first non-empty piece. *)
Lemma strtok_r_split (s : string) :
  match strtok_r s delimiters with
  | None => filter nonempty (split_at_delims s) = []
  | Some (tok, save) =>
      filter nonempty (split_at_delims s)
      = tok :: filter nonempty (split_at_delims save)
      /\ (String.length save < String.length s)%nat
  end.
Proof.
  induction s as [|c s IH]; [reflexivity|].
  unfold strtok_r in *. cbn [skip_delims split_at_delims].
  destruct (is_delim delimiters c) eqn:D.
  - destruct (skip_delims delimiters s) as [|c1 s1].
    + exact IH.
    + destruct (scan_token delimiters (String c1 s1)) as [tok save].
      cbn [filter nonempty String.eqb negb].
      destruct IH as [IH1 IH2]. split; [exact IH1 | simpl; lia].
  - cbn [scan_token]. rewrite D.
    destruct (scan_token delimiters s) as [t sv] eqn:E.
    destruct (scan_token_split s t sv E) as (Hlen & ts & Hs & Hf).
    rewrite Hs. cbn [filter nonempty String.eqb negb].
    rewrite Hf. split; [reflexivity | simpl; lia].
Qed.

Lemma strtok_r_none_iff (s : string) :
  strtok_r s delimiters = None <-> all_chars (is_delim delimiters) s = true.
Proof.
  unfold strtok_r. induction s as [|c s IH]; [simpl; tauto|].
  cbn [skip_delims all_chars].
  destruct (is_delim delimiters c); simpl.
  - exact IH.
  - split; discriminate.
Qed.

(** With a positive [size] and fuel for every character, the loop returns
    the first [size - i] non-empty pieces. *)
Lemma strsplit_loop_spec (fuel : nat) : forall ptr size i,
  (String.length ptr < fuel)%nat -> (i < size)%nat ->
  strsplit_loop fuel ptr size i
  = firstn (size - i) (filter nonempty (split_at_delims ptr)).
Proof.
  induction fuel as [|fuel IH]; intros ptr size i Hlen Hi; [lia|].
  cbn [strsplit_loop]. pose proof (strtok_r_split ptr) as Hs.
  destruct (strtok_r ptr delimiters) as [[tok save]|].
  - destruct Hs as [Hs Hl]. rewrite Hs.
    replace (size - i)%nat with (S (size - S i)) by lia.
    cbn [firstn]. f_equal.
    destruct (Nat.leb size (S i)) eqn:L.
    + apply Nat.leb_le in L. replace (size - S i)%nat with 0%nat by lia.
      reflexivity.
    + apply Nat.leb_gt in L. apply IH; lia.
  - rewrite Hs. destruct (size - i)%nat; reflexivity.
Qed.

(** The fuel [openvpn_strsplit] starts with is never used up: any larger
    amount gives the same fields. *)
Lemma strsplit_loop_fuel (fuel : nat) (s : string) (size : nat) :
  (String.length s < fuel)%nat -> (0 < size)%nat ->
  strsplit_loop fuel s size 0 = openvpn_strsplit s size.
Proof.
  intros Hlen Hsize. unfold openvpn_strsplit.
  rewrite !strsplit_loop_spec by lia. reflexivity.
Qed.

Lemma openvpn_strsplit_nil_iff (s : string) (size : nat) :
  openvpn_strsplit s size = [] <-> all_chars (is_delim delimiters) s = true.
Proof.
  rewrite <- strtok_r_none_iff. unfold openvpn_strsplit. cbn [strsplit_loop].
  destruct (strtok_r s delimiters) as [[tok save]|]; split;
    try discriminate; reflexivity.
Qed.

(** ** Properties of [atoll] *)










(** Positional notation: a further digit multiplies what stands before it
    by ten. *)
Lemma decimal_value_snoc (digits : string) (c : ascii) :
  decimal_value (digits ++ String c EmptyString)
  = 10 * decimal_value digits + digit_val c.
Proof.
  unfold decimal_value.
  assert (E : forall a b, list_ascii_of_string (a ++ b)
                          = (list_ascii_of_string a ++ list_ascii_of_string b)%list).
  { intros a b. induction a as [|x a IH]; simpl; [reflexivity|].
    rewrite IH. reflexivity. }
  rewrite E, fold_left_app. reflexivity.
Qed.

Example decimal_value_1500 : decimal_value "1500" = 1500.
Proof. reflexivity. Qed.

Example atoll_examples :
  atoll (ln "1000") = 1000 /\ atoll "  -12x" = -12 /\ atoll "abc" = 0 /\
  atoll "+-5" = 0 /\ atoll "99999999999999999999" = LLONG_MAX.
Proof. repeat split; reflexivity. Qed.


(** ** Properties of [derive_t] arithmetic *)

Lemma derive_wrap_shift (z k : Z) : derive_wrap (z + k * 2 ^ 64) = derive_wrap z.
Proof.
  unfold derive_wrap. f_equal.
  replace (z + k * 2 ^ 64 + 2 ^ 63) with (z + 2 ^ 63 + k * 2 ^ 64) by lia.
  apply Z_mod_plus_full.
Qed.

Lemma derive_wrap_multiple (z : Z) : exists k, derive_wrap z = z + k * 2 ^ 64.
Proof.
  exists (- ((z + 2 ^ 63) / 2 ^ 64)). unfold derive_wrap.
  pose proof (Z.div_mod (z + 2 ^ 63) (2 ^ 64) ltac:(lia)). lia.
Qed.

Lemma derive_wrap_range (z : Z) : - 2 ^ 63 <= derive_wrap z < 2 ^ 63.
Proof.
  unfold derive_wrap.
  pose proof (Z.mod_pos_bound (z + 2 ^ 63) (2 ^ 64) ltac:(lia)). lia.
Qed.

Lemma derive_wrap_small (z : Z) : - 2 ^ 63 <= z < 2 ^ 63 -> derive_wrap z = z.
Proof.
  intros H. unfold derive_wrap. rewrite Z.mod_small by lia. lia.
Qed.

(** A chain of wrapping operations is the wrapped exact result. *)
Lemma derive_chain (a b c d : Z) :
  derive_sub (derive_add (derive_sub a b) c) d = derive_wrap (a - b + c - d).
Proof.
  unfold derive_sub, derive_add.
  destruct (derive_wrap_multiple (a - b)) as [k1 E1]. rewrite E1.
  destruct (derive_wrap_multiple (a - b + k1 * 2 ^ 64 + c)) as [k2 E2].
  rewrite E2.
  replace (a - b + k1 * 2 ^ 64 + c + k2 * 2 ^ 64 - d)
    with (a - b + c - d + (k1 + k2) * 2 ^ 64) by lia.
  apply derive_wrap_shift.
Qed.

(** ** Properties of the readers *)

Section ReaderFacts.
Context {host : Host}.
Variable cfg : config.

(** No line makes [single_read] leave its loop. *)
Lemma single_body_continue (a : single_acc) (buffer : string) :
  exists a', single_body a buffer = Continue a'.
Proof.
  unfold single_body.
  repeat match goal with
         | |- context [if ?b then _ else _] => destruct b
         end; eauto.
Qed.

(** [single_read] always reaches its last statements, with the
    accumulators its loop has left. *)
Lemma single_read_finish (name : string) (fh : FILE) :
  exists a fh',
    read_lines single_body fh single_init = Some (Leave a, fh') /\
    single_read cfg name fh = Some (single_finish cfg name a).
Proof.
  destruct (read_lines_total single_body fh single_init) as (e & fh' & E).
  destruct (while_fgets_continue single_body _ _ _ _ _ single_body_continue E)
    as [a Ha].
  subst e. exists a, fh'. split; [exact E|].
  unfold single_read. rewrite E. reflexivity.
Qed.

Lemma multi1_read_total (name : string) (fh : FILE) :
  exists o, multi1_read cfg name fh = Some o.
Proof.
  unfold multi1_read.
  destruct (read_lines_total (multi1_body cfg name) fh multi1_init)
    as (e & fh' & E).
  rewrite E. destruct e; eauto.
Qed.

Lemma multi2_read_total (name : string) (fh : FILE) :
  exists o, multi2_read cfg name fh = Some o.
Proof.
  unfold multi2_read.
  destruct (read_lines_total (multi2_body cfg name) fh multi2_init)
    as (e & fh' & E).
  rewrite E. destruct e; eauto.
Qed.

(** The read callback returns whatever the file holds. *)
Lemma openvpn_read_total (fopen : filesystem) (st : vpn_status_t) :
  exists o, openvpn_read cfg fopen st = Some o.
Proof.
  unfold openvpn_read.
  destruct (fopen (file st)) as [fh|]; [|eauto].
  destruct (fgets 1024 fh) as [[buffer|] fh']; [|eauto].
  destruct (strcmp0 (c_str buffer) TITLE_SINGLE).
  - destruct (single_read_finish (name st) fh') as (a & _ & _ & E). eauto.
  - destruct (strcmp0 (c_str buffer) TITLE_V1); [apply multi1_read_total|].
    destruct (strncmp0 (c_str buffer) TITLE_V2); [apply multi2_read_total|].
    eauto.
Qed.

(** The column indexes found in a header stay below the header's number
    of fields less one, so they are inside every row of that many fields. *)
Lemma header_columns_range (rest : list string) : forall i c r s c' r' s',
  0 <= c <= i - 2 -> 0 <= r <= i - 2 -> 0 <= s <= i - 2 ->
  header_columns rest i (c, r, s) = (c', r', s') ->
  0 <= c' <= i + Z.of_nat (List.length rest) - 2 /\
  0 <= r' <= i + Z.of_nat (List.length rest) - 2 /\
  0 <= s' <= i + Z.of_nat (List.length rest) - 2.
Proof.
  induction rest as [|f rest IH]; intros i c r s c' r' s' Hc Hr Hs H.
  - simpl in *. inversion H; subst. lia.
  - cbn [header_columns] in H. cbn [List.length].
    destruct (strcmp0 f "Common Name");
      [apply IH in H; lia|].
    destruct (strcmp0 f "Bytes Received");
      [apply IH in H; lia|].
    destruct (strcmp0 f "Bytes Sent");
      apply IH in H; lia.
Qed.

(** The expected number of columns is set from the header row, to its
    number of fields less one, and stays as it is from then on. *)
Lemma multi2_body_header_columns (name : string) (s s' : multi2_state)
  (buffer : string) :
  m2_found_header s = false ->
  multi2_body cfg name s buffer = Continue s' ->
  m2_found_header s' = true ->
  columns s' = Z.of_nat (List.length (openvpn_strsplit buffer 20)) - 1.
Proof.
  intros Hf. unfold multi2_body. rewrite Hf. cbn [negb].
  destruct (_ <? 2); [intros H; inversion H; subst; congruence|].
  destruct (negb (strcmp0 _ "HEADER")); [intros H; inversion H; subst; congruence|].
  destruct (negb (strcmp0 _ "CLIENT_LIST")); [intros H; inversion H; subst; congruence|].
  destruct (header_columns _ _ _) as [[cname recv] sent].
  destruct (_ || _); [discriminate|].
  intros H _; inversion H; reflexivity.
Qed.

(** When the header is accepted, each of the three columns is mapped to a
    field that every row of the expected length has, behind field 0. *)
Lemma multi2_body_header_indexes (name : string) (s s' : multi2_state)
  (buffer : string) :
  m2_found_header s = false ->
  idx_cname s = 0 -> idx_bytes_recv s = 0 -> idx_bytes_sent s = 0 ->
  multi2_body cfg name s buffer = Continue s' ->
  m2_found_header s' = true ->
  0 < idx_cname s' < columns s' /\
  0 < idx_bytes_recv s' < columns s' /\
  0 < idx_bytes_sent s' < columns s'.
Proof.
  intros Hf Hc Hr Hs. unfold multi2_body. rewrite Hf, Hc, Hr, Hs. cbn [negb].
  destruct (Z.ltb_spec (Z.of_nat (List.length (openvpn_strsplit buffer 20))) 2)
    as [Hlt|Hge]; [intros H; inversion H; subst; congruence|].
  destruct (negb (strcmp0 _ "HEADER")); [intros H; inversion H; subst; congruence|].
  destruct (negb (strcmp0 _ "CLIENT_LIST")); [intros H; inversion H; subst; congruence|].
  destruct (header_columns _ _ _) as [[cname recv] sent] eqn:E.
  apply header_columns_range in E; try lia.
  rewrite length_skipn in E.
  destruct (Z.eqb_spec cname 0); [discriminate|].
  destruct (Z.eqb_spec recv 0); [discriminate|].
  destruct (Z.eqb_spec sent 0); [discriminate|].
  cbn [orb]. intros H _. inversion H.
  cbn [idx_cname idx_bytes_recv idx_bytes_sent columns].
  rewrite Nat2Z.inj_sub in E by (apply Nat2Z.inj_le; exact Hge).
  change (Z.of_nat 2) with 2 in E. lia.
Qed.

Lemma multi2_body_keeps_columns (name : string) (s s' : multi2_state)
  (buffer : string) :
  m2_found_header s = true ->
  multi2_body cfg name s buffer = Continue s' ->
  m2_found_header s' = true /\ columns s' = columns s /\
  idx_cname s' = idx_cname s /\ idx_bytes_recv s' = idx_bytes_recv s /\
  idx_bytes_sent s' = idx_bytes_sent s.
Proof.
  intros Hf. unfold multi2_body. rewrite Hf. cbn [negb].
  destruct (_ || _); [discriminate|].
  destruct (negb _); [discriminate|].
  intros H; inversion H; cbn; auto.
Qed.

End ReaderFacts.

(** ** The tokenizer *)

(** C8 does not hold as stated, in two places. With a maximum field count
    of 0 the tokenizer still returns one token, because a token is stored
    before the count is compared with the maximum. And a blank line, which
    is read from the file as a single newline, gives one token (the
    newline), not zero; so does a line of delimiters that ends in its
    newline. *)
Lemma openvpn_strsplit_counterexample :
  openvpn_strsplit "a,b" 0 = ["a"] /\
  openvpn_strsplit "a,b" 0 <> spec_tokenize "a,b" 0 /\
  openvpn_strsplit (ln "") 4 = [ln ""] /\
  openvpn_strsplit (ln ",,") 4 <> [].
Proof. repeat split; vm_compute; discriminate. Qed.

(** C8 (amended): for every line and every maximum field count N of at
    least 1, the tokenizer cuts the line at every comma and tab, drops the
    empty pieces between adjacent delimiters, and returns the first N
    non-empty tokens in order, discarding the text behind them. It returns
    no token exactly when the line has no character other than commas and
    tabs (the empty line for one); a newline is not a delimiter, so it stays
    in the last token. *)
Theorem openvpn_strsplit_tokens (s : string) (N : nat) :
  (1 <= N)%nat ->
  openvpn_strsplit s N = spec_tokenize s N /\
  (List.length (openvpn_strsplit s N) <= N)%nat /\
  (openvpn_strsplit s N = [] <-> all_chars (is_delim delimiters) s = true).
Proof.
  intros HN.
  assert (E : openvpn_strsplit s N = spec_tokenize s N).
  { unfold openvpn_strsplit, spec_tokenize.
    rewrite strsplit_loop_spec by lia. f_equal. lia. }
  split; [exact E|]. split.
  - rewrite E. unfold spec_tokenize. rewrite length_firstn. lia.
  - apply openvpn_strsplit_nil_iff.
Qed.

Lemma openvpn_strsplit_tokens_witness :
  (1 <= 3)%nat /\
  openvpn_strsplit ("a,,b" ++ String TAB "c,d") 3
  = spec_tokenize ("a,,b" ++ String TAB "c,d") 3.
Proof.
  split; [lia|].
  apply (openvpn_strsplit_tokens ("a,,b" ++ String TAB "c,d") 3). lia.
Defined.

(** ** The single-endpoint reader *)

(** C3 does not hold for the lines of Scenario A. The key "TUN/TAP read
    bytes" is stored in [tun_tx] and "TUN/TAP write bytes" in [tun_rx], so
    the pass accumulates [tun_rx] = 900 and [tun_tx] = 1500, and the
    overhead sample is (100, 500), not (-500, 1100). *)
Lemma scenario_A_overhead_counterexample :
  read_lines single_body
    (stream_of (ln "TCP/UDP read bytes,1000" ++ ln "TCP/UDP write bytes,2000" ++
                ln "TUN/TAP read bytes,1500" ++ ln "TUN/TAP write bytes,900"))
    single_init
  = Some (Leave (mkSingle 1000 2000 900 1500 0 0 0 0), stream_of "") /\
  option_map (fun o => nth_error (dispatched o) 1)
    (@single_read host128 initial_config "vpn"
       (stream_of (ln "TCP/UDP read bytes,1000" ++ ln "TCP/UDP write bytes,2000" ++
                   ln "TUN/TAP read bytes,1500" ++ ln "TUN/TAP write bytes,900")))
  = Some (Some (@iostats_submit host128 (Some "vpn") (Some "overhead") 100 500)) /\
  @iostats_submit host128 (Some "vpn") (Some "overhead") 100 500
  <> @iostats_submit host128 (Some "vpn") (Some "overhead") (-500) 1100.
Proof. repeat split; vm_compute; discriminate. Qed.

(** C3 (amended): every single-endpoint pass ends by dispatching, as its
    second value list, the overhead sample computed from the accumulators
    its loop has left: overhead_rx = ((link_rx - pre_decompress) +
    post_decompress) - tun_rx and overhead_tx = ((link_tx - post_compress)
    + pre_compress) - tun_tx, in that grouping, each operation wrapping
    around at 64 bits; the result is the exact value brought into the
    64-bit range. For the accumulated values link_rx = 1000, link_tx =
    2000, tun_rx = 1500, tun_tx = 900 and no compression it is (-500,
    1100), where -500 has the bit pattern of 2^64 - 500. The lines of
    Scenario A accumulate tun_rx = 900 and tun_tx = 1500 instead, and give
    the overhead (100, 500). *)
Theorem single_read_overhead {host : Host} (cfg : config) (name : string)
  (fh : FILE) :
  (exists a fh',
     read_lines single_body fh single_init = Some (Leave a, fh') /\
     single_read cfg name fh = Some (single_finish cfg name a) /\
     nth_error (dispatched (single_finish cfg name a)) 1
     = Some (iostats_submit (Some name) (Some "overhead")
               (derive_sub (derive_add (derive_sub (link_rx a) (pre_decompress a))
                                       (post_decompress a))
                           (tun_rx a))
               (derive_sub (derive_add (derive_sub (link_tx a) (post_compress a))
                                       (pre_compress a))
                           (tun_tx a))) /\
     overhead_rx a
     = derive_wrap (link_rx a - pre_decompress a + post_decompress a - tun_rx a) /\
     overhead_tx a
     = derive_wrap (link_tx a - post_compress a + pre_compress a - tun_tx a)) /\
  (overhead_rx (mkSingle 1000 2000 1500 900 0 0 0 0) = -500 /\
   overhead_tx (mkSingle 1000 2000 1500 900 0 0 0 0) = 1100 /\
   (-500) mod 2 ^ 64 = 2 ^ 64 - 500) /\
  (let scenario_A :=
     stream_of (ln "TCP/UDP read bytes,1000" ++ ln "TCP/UDP write bytes,2000" ++
                ln "TUN/TAP read bytes,1500" ++ ln "TUN/TAP write bytes,900") in
   single_read cfg name scenario_A
   = Some (single_finish cfg name (mkSingle 1000 2000 900 1500 0 0 0 0)) /\
   overhead_rx (mkSingle 1000 2000 900 1500 0 0 0 0) = 100 /\
   overhead_tx (mkSingle 1000 2000 900 1500 0 0 0 0) = 500).
Proof.
  split; [|split].
  - destruct (single_read_finish cfg name fh) as (a & fh' & E1 & E2).
    exists a, fh'. repeat split; try assumption; try reflexivity.
    + apply derive_chain.
    + apply derive_chain.
  - repeat split; reflexivity.
  - cbv zeta. repeat split; reflexivity.
Qed.

(** C2: a read error does not make [single_read] fail. A stream that
    delivers one line of statistics and then fails to read leaves the loop
    of [single_read] with its error indicator set, and yet the call returns
    0 and dispatches the traffic, overhead and compression samples, computed
    from the part of the file that was read. Both multi-client readers test
    the indicator after their loop and return -1 on the same failure. *)
Theorem single_read_ignores_read_error :
  let failing := mkFILE (ln "TCP/UDP read bytes,1000") true false in
  (exists a fh',
     read_lines single_body failing single_init = Some (Leave a, fh') /\
     ferror fh' = true) /\
  @openvpn_read host128 initial_config
    (fun _ => Some (mkFILE (ln "OpenVPN STATISTICS" ++ ln "TCP/UDP read bytes,1000")
                      true false))
    (mkStatus "/var/run/openvpn.status" "openvpn.status")
  = Some (mkOutcome 0
            [@iostats_submit host128 (Some "openvpn.status") (Some "traffic") 1000 0;
             @iostats_submit host128 (Some "openvpn.status") (Some "overhead") 1000 0;
             @compression_submit host128 (Some "openvpn.status") (Some "data_in") 0 0;
             @compression_submit host128 (Some "openvpn.status") (Some "data_out") 0 0]
            []) /\
  @multi1_read host128 initial_config "openvpn.status"
    (mkFILE (V1HEADER ++ ln "clientA,1.2.3.4,500,700") true false)
  = Some (mkOutcome (-1)
            [@iostats_submit host128 (Some "clientA") None 500 700] []) /\
  @multi2_read host128 initial_config "openvpn.status"
    (mkFILE (ln "HEADER,CLIENT_LIST,Common Name,Bytes Received,Bytes Sent,Since")
       true false)
  = Some (mkOutcome (-1) [] []).
Proof.
  cbv zeta. split; [|split; [|split]].
  - eexists _, _. split; vm_compute; reflexivity.
  - vm_compute. reflexivity.
  - vm_compute. reflexivity.
  - vm_compute. reflexivity.
Qed.

(** ** Format detection *)


Lemma strcmp0_neq (a b : string) : strcmp0 a b = false <-> a <> b.
Proof. apply String.eqb_neq. Qed.

(** The two titles that are compared as a whole do not start with the
    third one. *)
Lemma title_v2_exclusive (buffer : string) :
  strncmp0 buffer TITLE_V2 = true ->
  strcmp0 buffer TITLE_SINGLE = false /\ strcmp0 buffer TITLE_V1 = false.
Proof.
  intros H. split; apply strcmp0_neq; intros E; subst buffer;
    vm_compute in H; discriminate H.
Qed.

(** The callback once the file is open and its first line is read. *)
Lemma openvpn_read_first_line {host : Host} (cfg : config) (fopen : filesystem)
  (st : vpn_status_t) (fh fh' : FILE) (buffer : string) :
  fopen (file st) = Some fh ->
  fgets 1024 fh = (Some buffer, fh') ->
  openvpn_read cfg fopen st
  = if strcmp0 (c_str buffer) TITLE_SINGLE then single_read cfg (name st) fh'
    else if strcmp0 (c_str buffer) TITLE_V1 then multi1_read cfg (name st) fh'
    else if strncmp0 (c_str buffer) TITLE_V2 then multi2_read cfg (name st) fh'
    else Some (mkOutcome (-1) [] [NOTICE_unknown_format_file (file st)]).
Proof.
  intros Hopen Hgets. unfold openvpn_read. rewrite Hopen, Hgets. reflexivity.
Qed.

(** C6: the read callback reads one line of the file, the first, and
    chooses by it alone: the title of the single-endpoint format (with the
    newline that ends the line) selects [single_read], the title of the
    version 1 list selects [multi1_read], a line that starts with TITLE
    selects [multi2_read], each of them run on the stream behind the first
    line; any other first line makes the call fail with the "unknown file
    format" notice, no reader is run and nothing is dispatched. *)
Theorem openvpn_read_dispatch {host : Host} (cfg : config) (fopen : filesystem)
  (st : vpn_status_t) (fh fh' : FILE) (buffer : string) :
  fopen (file st) = Some fh ->
  fgets 1024 fh = (Some buffer, fh') ->
  (c_str buffer = ln "OpenVPN STATISTICS" ->
   openvpn_read cfg fopen st = single_read cfg (name st) fh') /\
  (c_str buffer = ln "OpenVPN CLIENT LIST" ->
   openvpn_read cfg fopen st = multi1_read cfg (name st) fh') /\
  (String.prefix "TITLE" (c_str buffer) = true ->
   openvpn_read cfg fopen st = multi2_read cfg (name st) fh') /\
  (c_str buffer <> ln "OpenVPN STATISTICS" ->
   c_str buffer <> ln "OpenVPN CLIENT LIST" ->
   String.prefix "TITLE" (c_str buffer) = false ->
   openvpn_read cfg fopen st
   = Some (mkOutcome (-1) [] [NOTICE_unknown_format_file (file st)])).
Proof.
  intros Hopen Hgets. rewrite (openvpn_read_first_line cfg _ _ _ _ _ Hopen Hgets).
  split; [|split; [|split]].
  - intros E. rewrite E. reflexivity.
  - intros E. rewrite E. reflexivity.
  - intros E. destruct (title_v2_exclusive _ E) as [E1 E2].
    unfold strncmp0, TITLE_V2. rewrite E1, E2, E. reflexivity.
  - intros N1 N2 N3. apply strcmp0_neq in N1. apply strcmp0_neq in N2.
    unfold strncmp0, TITLE_V2, TITLE_SINGLE, TITLE_V1.
    rewrite N1, N2, N3. reflexivity.
Qed.

Lemma openvpn_read_dispatch_witness :
  let fopen : filesystem :=
    fun _ => Some (stream_of (ln "OpenVPN CLIENT LIST" ++ V1HEADER ++
                              ln "clientA,1.2.3.4,500,700" ++ ln "ROUTING TABLE")) in
  let st := mkStatus "/var/run/openvpn.status" "openvpn.status" in
  fgets 1024 (stream_of (ln "OpenVPN CLIENT LIST" ++ V1HEADER ++
                         ln "clientA,1.2.3.4,500,700" ++ ln "ROUTING TABLE"))
  = (Some (ln "OpenVPN CLIENT LIST"),
     stream_of (V1HEADER ++ ln "clientA,1.2.3.4,500,700" ++ ln "ROUTING TABLE")) /\
  @openvpn_read host128 initial_config fopen st
  = @multi1_read host128 initial_config "openvpn.status"
      (stream_of (V1HEADER ++ ln "clientA,1.2.3.4,500,700" ++ ln "ROUTING TABLE")).
Proof.
  cbv zeta. split; [reflexivity|].
  apply (proj1 (proj2
    (@openvpn_read_dispatch host128 initial_config
       (fun _ => Some (stream_of (ln "OpenVPN CLIENT LIST" ++ V1HEADER ++
                                  ln "clientA,1.2.3.4,500,700" ++ ln "ROUTING TABLE")))
       (mkStatus "/var/run/openvpn.status" "openvpn.status")
       _ _ _ eq_refl eq_refl))).
  reflexivity.
Defined.

(** C9: the titles of the single-endpoint format and of the version 1 list
    are compared together with the newline that ends their line. A file
    that holds one of them and nothing else, not even the newline, is not
    recognised: the call fails with the "unknown file format" notice. The
    same files with the newline select their reader, and TITLE alone,
    compared as a prefix, selects [multi2_read] without a newline. *)
Theorem title_needs_newline {host : Host} (cfg : config) (fopen : filesystem)
  (st : vpn_status_t) (content : string) :
  fopen (file st) = Some (stream_of content) ->
  (content = "OpenVPN STATISTICS" \/ content = "OpenVPN CLIENT LIST" ->
   openvpn_read cfg fopen st
   = Some (mkOutcome (-1) [] [NOTICE_unknown_format_file (file st)])) /\
  (content = "TITLE" ->
   openvpn_read cfg fopen st = multi2_read cfg (name st) (stream_of "")) /\
  (content = ln "OpenVPN STATISTICS" ->
   openvpn_read cfg fopen st = single_read cfg (name st) (stream_of "")) /\
  (content = ln "OpenVPN CLIENT LIST" ->
   openvpn_read cfg fopen st = multi1_read cfg (name st) (stream_of "")).
Proof.
  intros Hopen. unfold openvpn_read. rewrite Hopen.
  split; [|split; [|split]].
  - intros [E|E]; subst content; reflexivity.
  - intros E; subst content; reflexivity.
  - intros E; subst content; reflexivity.
  - intros E; subst content; reflexivity.
Qed.

Lemma title_needs_newline_witness :
  let fopen : filesystem := fun _ => Some (stream_of "OpenVPN STATISTICS") in
  let st := mkStatus "/var/run/openvpn.status" "openvpn.status" in
  fopen (file st) = Some (stream_of "OpenVPN STATISTICS") /\
  @openvpn_read host128 initial_config fopen st
  = Some (mkOutcome (-1) [] [NOTICE_unknown_format_file "/var/run/openvpn.status"]).
Proof.
  cbv zeta. split; [reflexivity|].
  apply (proj1
    (@title_needs_newline host128 initial_config
       (fun _ => Some (stream_of "OpenVPN STATISTICS"))
       (mkStatus "/var/run/openvpn.status" "openvpn.status")
       "OpenVPN STATISTICS" eq_refl)).
  left. reflexivity.
Defined.



(** ** The version 2 and 3 reader *)

(** A row that is accepted adds its sample behind those dispatched before;
    nothing is ever taken back. *)
Lemma multi2_body_out_grows {host : Host} (cfg : config) (name : string)
  (s s' : multi2_state) (buffer : string) :
  multi2_body cfg name s buffer = Continue s' ->
  exists l, m2_out s' = (m2_out s ++ l)%list.
Proof.
  unfold multi2_body.
  destruct (negb (m2_found_header s)).
  - destruct (_ <? 2); [intros H; inversion H; exists []; symmetry; apply app_nil_r|].
    destruct (negb (strcmp0 _ "HEADER"));
      [intros H; inversion H; exists []; symmetry; apply app_nil_r|].
    destruct (negb (strcmp0 _ "CLIENT_LIST"));
      [intros H; inversion H; exists []; symmetry; apply app_nil_r|].
    destruct (header_columns _ _ _) as [[cname recv] sent].
    destruct (_ || _); [discriminate|].
    intros H; inversion H; exists []; symmetry; apply app_nil_r.
  - destruct (_ || _); [discriminate|].
    destruct (negb _); [discriminate|].
    intros H; inversion H; cbn [m2_out].
    destruct (collect_individual_users cfg); eexists; [reflexivity|].
    symmetry; apply app_nil_r.
Qed.

(** C4: once the header has been accepted, a row whose first field is
    CLIENT_LIST and whose number of fields is not the expected number of
    columns (the header's number of fields less one, see
    [multi2_body_header_columns]) ends the pass at once: the call returns -1
    with the "fields count mismatch" error, whatever follows in the file is
    not read, and what it has dispatched is exactly what the rows before
    had dispatched. *)
Theorem multi2_field_count_mismatch {host : Host} (cfg : config) (name : string)
  (k : nat) (fh fh1 fh2 : FILE) (s : multi2_state) (buffer : string) :
  iterate_lines (multi2_body cfg name) k fh multi2_init = Some (fh1, s) ->
  m2_found_header s = true ->
  fgets 1024 fh1 = (Some buffer, fh2) ->
  field (openvpn_strsplit (c_str buffer) 20) 0 = "CLIENT_LIST" ->
  Z.of_nat (List.length (openvpn_strsplit (c_str buffer) 20)) <> columns s ->
  read_lines (multi2_body cfg name) fh multi2_init
  = Some (Exit (mkOutcome (-1) (m2_out s) [ERROR_fields_count_mismatch name]), fh2) /\
  multi2_read cfg name fh
  = Some (mkOutcome (-1) (m2_out s) [ERROR_fields_count_mismatch name]).
Proof.
  intros Hiter Hfound Hgets Hfirst Hcount.
  assert (E : read_lines (multi2_body cfg name) fh multi2_init
              = Some (Exit (mkOutcome (-1) (m2_out s)
                              [ERROR_fields_count_mismatch name]), fh2)).
  { rewrite (read_lines_iterate _ _ _ _ _ _ Hiter).
    rewrite read_lines_step, Hgets.
    unfold multi2_body. rewrite Hfound, Hfirst. cbn [negb].
    destruct (Z.eqb_spec (Z.of_nat (List.length (openvpn_strsplit (c_str buffer) 20))) 0)
      as [Hz|Hz].
    - exfalso. destruct (openvpn_strsplit (c_str buffer) 20);
        [discriminate Hfirst | discriminate Hz].
    - apply Z.eqb_neq in Hcount. rewrite Hcount. reflexivity. }
  split; [exact E|]. unfold multi2_read. rewrite E. reflexivity.
Qed.

Lemma multi2_field_count_mismatch_witness :
  let header :=
    ln "HEADER,CLIENT_LIST,Common Name,Real Address,Bytes Received,Bytes Sent,Connected Since" in
  let row1 := ln "CLIENT_LIST,clientA,1.2.3.4,500,700,Thu Jun 18 04:23:03 2015" in
  let short := ln "CLIENT_LIST,clientB,5.6.7.8,300,400" in
  let row3 := ln "CLIENT_LIST,clientC,9.9.9.9,1,2,Thu Jun 18 04:23:03 2015" in
  let s := mkMulti2 0 true 1 3 4 6
             [@iostats_submit host128 (Some "clientA") None 500 700] in
  iterate_lines (@multi2_body host128 initial_config "vpn") 2
    (stream_of (header ++ row1 ++ short ++ row3)) multi2_init
  = Some (stream_of (short ++ row3), s) /\
  m2_found_header s = true /\
  fgets 1024 (stream_of (short ++ row3)) = (Some short, stream_of row3) /\
  field (openvpn_strsplit (c_str short) 20) 0 = "CLIENT_LIST" /\
  Z.of_nat (List.length (openvpn_strsplit (c_str short) 20)) <> columns s /\
  @multi2_read host128 initial_config "vpn"
    (stream_of (header ++ row1 ++ short ++ row3))
  = Some (mkOutcome (-1)
            [@iostats_submit host128 (Some "clientA") None 500 700]
            [ERROR_fields_count_mismatch "vpn"]).
Proof.
  cbv zeta.
  split; [reflexivity|]. split; [reflexivity|]. split; [reflexivity|].
  split; [reflexivity|]. split; [vm_compute; discriminate|].
  refine (proj2 (@multi2_field_count_mismatch host128 initial_config "vpn" 2
    (stream_of
       (ln "HEADER,CLIENT_LIST,Common Name,Real Address,Bytes Received,Bytes Sent,Connected Since" ++
        ln "CLIENT_LIST,clientA,1.2.3.4,500,700,Thu Jun 18 04:23:03 2015" ++
        ln "CLIENT_LIST,clientB,5.6.7.8,300,400" ++
        ln "CLIENT_LIST,clientC,9.9.9.9,1,2,Thu Jun 18 04:23:03 2015"))
    (stream_of
       (ln "CLIENT_LIST,clientB,5.6.7.8,300,400" ++
        ln "CLIENT_LIST,clientC,9.9.9.9,1,2,Thu Jun 18 04:23:03 2015"))
    (stream_of (ln "CLIENT_LIST,clientC,9.9.9.9,1,2,Thu Jun 18 04:23:03 2015"))
    (mkMulti2 0 true 1 3 4 6 [@iostats_submit host128 (Some "clientA") None 500 700])
    (ln "CLIENT_LIST,clientB,5.6.7.8,300,400")
    eq_refl eq_refl eq_refl eq_refl _)).
  vm_compute; discriminate.
Defined.

(** C1 does not hold for the two lines of Scenario C. The last field of the
    header is read together with the newline that ends the line, so it is
    not "Bytes Sent": that column stays unresolved, the loop is left, and
    the call fails with the "unknown file format" notice without a sample.
    Bytes Received, the fifth field of the header, is mapped to index 3,
    not 2. *)
Lemma scenario_C_counterexample :
  let header :=
    ln "HEADER,CLIENT_LIST,Common Name,Real Address,Bytes Received,Bytes Sent" in
  let row := ln "CLIENT_LIST,clientB,5.6.7.8,300,400" in
  field (openvpn_strsplit header 20) 5 = ln "Bytes Sent" /\
  header_columns (skipn 2 (openvpn_strsplit header 20)) 2 (0, 0, 0) = (1, 3, 0) /\
  @multi2_read host128 initial_config "vpn" (stream_of (header ++ row))
  = Some (mkOutcome (-1) [] [NOTICE_unknown_format_instance "vpn"]).
Proof. cbv zeta. repeat split; vm_compute; reflexivity. Qed.

(** C1 (amended): when a further column follows Bytes Sent, as in the
    header "HEADER,CLIENT_LIST,Common Name,Real Address,Bytes Received,Bytes
    Sent,Connected Since", and the data row has a field for it, the header
    is accepted with Common Name at data-row index 1, Bytes Received at
    index 3 and Bytes Sent at index 4, and with the per-client samples
    switched on exactly one traffic sample is dispatched, for the client
    "clientB" with rx = 300 and tx = 400 (followed by the user count, 1,
    when that is collected). The two lines of the scenario as it stands
    give no sample: the call fails for want of a Bytes Sent column. *)
Theorem scenario_C_trailing_column {host : Host} (cfg : config) (name : string) :
  collect_individual_users cfg = true ->
  let header :=
    ln "HEADER,CLIENT_LIST,Common Name,Real Address,Bytes Received,Bytes Sent,Connected Since" in
  let row := ln "CLIENT_LIST,clientB,5.6.7.8,300,400,Thu Jun 18 04:23:03 2015" in
  header_columns (skipn 2 (openvpn_strsplit header 20)) 2 (0, 0, 0) = (1, 3, 4) /\
  iterate_lines (multi2_body cfg name) 1 (stream_of (header ++ row)) multi2_init
  = Some (stream_of row, mkMulti2 0 true 1 3 4 6 []) /\
  multi2_read cfg name (stream_of (header ++ row))
  = Some (mkOutcome 0
            (client_submit cfg name "clientB" 300 400
             :: (if collect_user_count cfg then
                   [numusers_submit (Some name) (Some name) 1]
                 else []))
            []) /\
  multi2_read cfg name
    (stream_of
       (ln "HEADER,CLIENT_LIST,Common Name,Real Address,Bytes Received,Bytes Sent" ++
        ln "CLIENT_LIST,clientB,5.6.7.8,300,400"))
  = Some (mkOutcome (-1) [] [NOTICE_unknown_format_instance name]).
Proof.
  intros Hind. cbv zeta.
  split; [reflexivity|]. split; [reflexivity|].
  destruct cfg as [naming compression count individual].
  cbn [collect_individual_users] in Hind. subst individual.
  split; [|reflexivity].
  destruct count; reflexivity.
Qed.

Lemma scenario_C_trailing_column_witness :
  collect_individual_users initial_config = true /\
  @multi2_read host128 initial_config "vpn"
    (stream_of
       (ln "HEADER,CLIENT_LIST,Common Name,Real Address,Bytes Received,Bytes Sent,Connected Since" ++
        ln "CLIENT_LIST,clientB,5.6.7.8,300,400,Thu Jun 18 04:23:03 2015"))
  = Some (mkOutcome 0 [@iostats_submit host128 (Some "clientB") None 300 400] []).
Proof.
  split; [reflexivity|].
  exact (proj1 (proj2 (proj2
    (@scenario_C_trailing_column host128 initial_config "vpn" eq_refl)))).
Defined.

(** ** Successive read cycles *)

(** C7: two calls of the read callback in a row, with the file and the
    flags as they are, return the same value and dispatch the same value
    lists in the same order; a call changes neither the flags nor the
    files, it only hands its value lists and messages to the daemon. *)
Theorem read_cycle_idempotent {host : Host} (st : vpn_status_t) (w : world) :
  exists r samples notes w1 w2,
    read_cycle st w = Some (r, w1) /\
    read_cycle st w1 = Some (r, w2) /\
    received w1 = (received w ++ samples)%list /\
    received w2 = (received w1 ++ samples)%list /\
    messages w1 = (messages w ++ notes)%list /\
    messages w2 = (messages w1 ++ notes)%list /\
    flags w1 = flags w /\ files w1 = files w /\
    flags w2 = flags w /\ files w2 = files w.
Proof.
  destruct (openvpn_read_total (flags w) (files w) st) as [o E].
  exists (ret o), (dispatched o), (logged o).
  unfold read_cycle. rewrite E.
  eexists _, _. split; [reflexivity|].
  cbn [flags files received messages]. rewrite E.
  repeat split; reflexivity.
Qed.

(** ** The scenarios of the format descriptions, run *)

(** A version 1 list with one client, under the initial flags: one value
    list, named after the client, with no type instance. *)
Example scenario_B_multi1 :
  @openvpn_read host128 initial_config
    (fun _ => Some (stream_of (ln "OpenVPN CLIENT LIST" ++ V1HEADER ++
                               ln "clientA,1.2.3.4,500,700" ++ ln "ROUTING TABLE" ++
                               ln "Virtual Address,Common Name,Real Address,Last Ref")))
    (mkStatus "/var/run/openvpn.status" "openvpn.status")
  = Some (mkOutcome 0
            [mkVL [derive 500; derive 700] "openvpn" "clientA" "if_octets" ""]
            []).
Proof. reflexivity. Qed.

(** A version 3 file (tabs) of OpenVPN 2.4, with the improved naming schema
    and the user count switched on. *)
Example version3_tabs :
  let tab := String TAB "" in
  @openvpn_read host128 (mkConfig true true true true)
    (fun _ => Some (stream_of
       (ln ("TITLE" ++ tab ++ "OpenVPN 2.4.4") ++
        ln ("TIME" ++ tab ++ "Thu Jun 18 04:23:03 2015" ++ tab ++ "1434601383") ++
        ln ("HEADER" ++ tab ++ "CLIENT_LIST" ++ tab ++ "Common Name" ++ tab ++
            "Real Address" ++ tab ++ "Virtual Address" ++ tab ++
            "Virtual IPv6 Address" ++ tab ++ "Bytes Received" ++ tab ++
            "Bytes Sent" ++ tab ++ "Connected Since") ++
        ln ("CLIENT_LIST" ++ tab ++ "alice" ++ tab ++ "1.2.3.4:1194" ++ tab ++
            "10.8.0.2" ++ tab ++ "fd00::2" ++ tab ++ "4711" ++ tab ++ "815" ++ tab ++
            "Thu Jun 18 04:00:00 2015") ++
        ln ("HEADER" ++ tab ++ "ROUTING_TABLE" ++ tab ++ "Virtual Address") ++
        ln "END")))
    (mkStatus "/var/run/openvpn.status" "openvpn.status")
  = Some (mkOutcome 0
            [mkVL [derive 4711; derive 815] "openvpn" "openvpn.status" "if_octets" "alice";
             mkVL [gauge 1] "openvpn" "openvpn.status" "users" "openvpn.status"]
            []).
Proof. reflexivity. Qed.

(** A physical line longer than the buffer is read in pieces, each of which
    the readers take for a line. *)
Example fgets_long_line :
  let long := String.concat "" (List.repeat "0123456789" 103) in
  String.length long = 1030%nat /\
  fgets 1024 (stream_of (ln long))
  = (Some (String.substring 0 1023 long), stream_of (ln "3456789")).
Proof. cbv zeta. split; vm_compute; reflexivity. Qed.

(** ** More on the line loop *)

Section LoopInvariants.
Variables St R : Type.
Variable body : St -> string -> ctl St R.

(** An invariant of the passes that continue holds when the loop is left
    at the end of the stream; what holds where the body breaks or returns
    holds of the result. *)
Lemma while_fgets_invariant (P L : St -> Prop) (Q : R -> Prop) :
  (forall s, P s -> L s) ->
  (forall s buffer, P s ->
     match body s buffer with
     | Continue s' => P s'
     | Break s' => L s'
     | Return r => Q r
     end) ->
  forall fuel fh s e fh',
    P s -> while_fgets body fuel fh s = Some (e, fh') ->
    match e with Leave s' => L s' | Exit r => Q r end.
Proof.
  intros HPL Hstep fuel.
  induction fuel as [|fuel IH]; intros fh s e fh' HP H; [discriminate|].
  simpl in H. destruct (fgets 1024 fh) as [[buffer|] fh1].
  - pose proof (Hstep s (c_str buffer) HP) as Hb.
    destruct (body s (c_str buffer)) as [s'|s'|r].
    + eapply IH; eauto.
    + inversion H; subst. exact Hb.
    + inversion H; subst. exact Hb.
  - inversion H; subst. apply HPL. exact HP.
Qed.

Lemma iterate_lines_invariant (P : St -> Prop) :
  (forall s buffer s', P s -> body s buffer = Continue s' -> P s') ->
  forall k fh s fh1 s1,
    P s -> iterate_lines body k fh s = Some (fh1, s1) -> P s1.
Proof.
  intros Hstep k. induction k as [|k IH]; intros fh s fh1 s1 HP H; simpl in H.
  - inversion H; subst. exact HP.
  - destruct (fgets 1024 fh) as [[buffer|] fh']; [|discriminate].
    destruct (body s (c_str buffer)) as [s'|s'|r] eqn:E; try discriminate.
    eapply IH; [|exact H]. eapply Hstep; eauto.
Qed.

(** Lines that are read leave the error indicator as it was. *)
Lemma iterate_lines_error_ind (k : nat) : forall fh s fh1 s1,
  iterate_lines body k fh s = Some (fh1, s1) -> error_ind fh1 = error_ind fh.
Proof.
  induction k as [|k IH]; intros fh s fh1 s1 H; simpl in H.
  - inversion H; reflexivity.
  - destruct (fgets 1024 fh) as [[buffer|] fh'] eqn:G; [|discriminate].
    destruct (body s (c_str buffer)); try discriminate.
    apply IH in H. rewrite H. eapply fgets_some_error_ind; eauto.
Qed.

(** A file that starts with plain lines is read line by line. *)
Lemma iterate_lines_plain (ls : list string) : forall rest b e s s',
  forallb plain_line ls = true ->
  run_lines body ls s = Some s' ->
  iterate_lines body (List.length ls) (mkFILE (concat_lines ls ++ rest) b e) s
  = Some (mkFILE rest b e, s').
Proof.
  induction ls as [|l ls IH]; intros rest b e s s' Hp Hrun.
  - simpl in *. inversion Hrun; reflexivity.
  - cbn [forallb] in Hp. apply andb_prop in Hp. destruct Hp as [Hl Hls].
    unfold plain_line in Hl. apply andb_prop in Hl. destruct Hl as [Hnl Hlen].
    apply Nat.ltb_lt in Hlen.
    cbn [List.length iterate_lines concat_lines].
    assert (E : (ln l ++ concat_lines ls) ++ rest = ln l ++ (concat_lines ls ++ rest)).
    { clear. induction (ln l) as [|c x IHx]; simpl; [reflexivity|].
      rewrite IHx. reflexivity. }
    rewrite E, (fgets_line l _ b e Hnl Hlen).
    cbn [run_lines] in Hrun.
    destruct (body s (c_str (ln l))) as [s1|s1|r]; try discriminate.
    apply IH; assumption.
Qed.

Lemma read_lines_plain (ls : list string) (rest : string) (b e : bool) (s s' : St) :
  forallb plain_line ls = true ->
  run_lines body ls s = Some s' ->
  read_lines body (mkFILE (concat_lines ls ++ rest) b e) s
  = read_lines body (mkFILE rest b e) s'.
Proof.
  intros Hp Hrun.
  apply (read_lines_iterate body (List.length ls)).
  apply iterate_lines_plain; assumption.
Qed.

End LoopInvariants.
Arguments while_fgets_invariant {St R}.
Arguments iterate_lines_invariant {St R}.
Arguments iterate_lines_error_ind {St R}.
Arguments iterate_lines_plain {St R}.
Arguments read_lines_plain {St R}.

(** Two loops over the same stream whose bodies stay in step end in the
    same way. *)
Lemma while_fgets_related {St1 St2 R1 R2 : Type}
  (body1 : St1 -> string -> ctl St1 R1) (body2 : St2 -> string -> ctl St2 R2)
  (rel : St1 -> St2 -> Prop) (relr : R1 -> R2 -> Prop) :
  (forall s1 s2 buffer, rel s1 s2 ->
     match body1 s1 buffer, body2 s2 buffer with
     | Continue a, Continue b => rel a b
     | Break a, Break b => rel a b
     | Return x, Return y => relr x y
     | _, _ => False
     end) ->
  forall fuel fh s1 s2, rel s1 s2 ->
    match while_fgets body1 fuel fh s1, while_fgets body2 fuel fh s2 with
    | Some (Leave a, f1), Some (Leave b, f2) => rel a b /\ f1 = f2
    | Some (Exit x, _), Some (Exit y, _) => relr x y
    | None, None => True
    | _, _ => False
    end.
Proof.
  intros Hstep fuel. induction fuel as [|fuel IH]; intros fh s1 s2 Hrel.
  - exact I.
  - simpl. destruct (fgets 1024 fh) as [[buffer|] fh1].
    + pose proof (Hstep s1 s2 (c_str buffer) Hrel) as Hb.
      destruct (body1 s1 (c_str buffer)), (body2 s2 (c_str buffer));
        try contradiction.
      * apply IH. exact Hb.
      * split; [exact Hb | reflexivity].
      * exact Hb.
    + split; [exact Hrel | reflexivity].
Qed.

(** ** More on the tokenizer *)

Lemma scan_token_clean (s : string) : forall tok save,
  scan_token delimiters s = (tok, save) ->
  all_chars (fun c => negb (is_delim delimiters c)) tok = true.
Proof.
  induction s as [|c s IH]; intros tok save H; cbn [scan_token] in H.
  - inversion H; reflexivity.
  - destruct (is_delim delimiters c) eqn:D.
    + inversion H; reflexivity.
    + destruct (scan_token delimiters s) as [t sv] eqn:E.
      inversion H; subst. cbn [all_chars]. rewrite D. exact (IH _ _ eq_refl).
Qed.

Lemma skip_delims_head (s : string) (c : ascii) (s1 : string) :
  skip_delims delimiters s = String c s1 -> is_delim delimiters c = false.
Proof.
  induction s as [|x s IH]; cbn [skip_delims]; [discriminate|].
  destruct (is_delim delimiters x) eqn:D; [exact IH|].
  intros H; inversion H; subst. exact D.
Qed.

Lemma strtok_r_clean (s tok save : string) :
  strtok_r s delimiters = Some (tok, save) ->
  tok <> EmptyString /\
  all_chars (fun c => negb (is_delim delimiters c)) tok = true.
Proof.
  unfold strtok_r. destruct (skip_delims delimiters s) as [|c s1] eqn:E;
    [discriminate|].
  intros H. injection H as H1.
  pose proof (skip_delims_head _ _ _ E) as D. split.
  - assert (N : forall p, scan_token delimiters (String c s1) = p ->
                            fst p <> EmptyString).
    { intros p Hp. rewrite <- Hp. cbn [scan_token]. rewrite D.
      destruct (scan_token delimiters s1). discriminate. }
    exact (N (tok, save) H1).
  - exact (scan_token_clean (String c s1) tok save H1).
Qed.

Lemma strsplit_loop_clean (fuel : nat) : forall ptr size i,
  Forall (fun t => t <> EmptyString /\
                   all_chars (fun c => negb (is_delim delimiters c)) t = true)
    (strsplit_loop fuel ptr size i) /\
  (List.length (strsplit_loop fuel ptr size i) <= Nat.max (size - i) 1)%nat.
Proof.
  induction fuel as [|fuel IH]; intros ptr size i; cbn [strsplit_loop].
  - split; [constructor | simpl; lia].
  - destruct (strtok_r ptr delimiters) as [[tok save]|] eqn:E.
    + apply strtok_r_clean in E.
      destruct (Nat.leb size (S i)) eqn:L.
      * split; [constructor; [exact E | constructor] | simpl; lia].
      * apply Nat.leb_gt in L. destruct (IH save size (S i)) as [IH1 IH2].
        split; [constructor; assumption | simpl; lia].
    + split; [constructor | simpl; lia].
Qed.

(** X1: whatever the line and the maximum, no field that the tokenizer
    returns is empty or holds a comma or a tab, and there are at most as
    many fields as the maximum allows (one, when the maximum is 0): the
    arrays of 4, 10 and 20 fields of the readers are never overrun. *)
Theorem openvpn_strsplit_fields_clean (s : string) (size : nat) :
  Forall (fun t => t <> EmptyString /\
                   all_chars (fun c => negb (is_delim delimiters c)) t = true)
    (openvpn_strsplit s size) /\
  (List.length (openvpn_strsplit s size) <= Nat.max size 1)%nat.
Proof.
  unfold openvpn_strsplit.
  destruct (strsplit_loop_clean (S (String.length s)) s size 0) as [H1 H2].
  split; [exact H1|]. rewrite Nat.sub_0_r in H2. exact H2.
Qed.

Lemma split_at_delims_token (t : string) :
  all_chars (fun c => negb (is_delim delimiters c)) t = true ->
  split_at_delims t = [t] /\
  forall r, split_at_delims (t ++ String "," r) = t :: split_at_delims r.
Proof.
  induction t as [|c t IH]; intros H.
  - split; reflexivity.
  - cbn [all_chars] in H. apply andb_prop in H. destruct H as [Hc Ht].
    apply negb_true_iff in Hc. destruct (IH Ht) as [IH1 IH2].
    split.
    + cbn [split_at_delims]. rewrite Hc, IH1. reflexivity.
    + intros r.
      change (String c t ++ String "," r) with (String c (t ++ String "," r)).
      cbn [split_at_delims]. rewrite Hc, IH2. reflexivity.
Qed.

Lemma split_at_delims_concat (toks : list string) :
  Forall (fun t => t <> EmptyString /\
                   all_chars (fun c => negb (is_delim delimiters c)) t = true) toks ->
  filter nonempty (split_at_delims (String.concat "," toks)) = toks.
Proof.
  induction toks as [|t toks IH]; intros H; [reflexivity|].
  inversion H as [|x l [Hne Hcl] Hrest]; subst.
  assert (Ht : nonempty t = true).
  { unfold nonempty. destruct t; [congruence | reflexivity]. }
  destruct toks as [|t2 toks].
  - cbn [String.concat]. rewrite (proj1 (split_at_delims_token t Hcl)).
    cbn [filter]. rewrite Ht. reflexivity.
  - assert (E : String.concat "," (t :: t2 :: toks)
                = t ++ String "," (String.concat "," (t2 :: toks)))
      by reflexivity.
    rewrite E, (proj2 (split_at_delims_token t Hcl)).
    cbn [filter]. rewrite Ht. f_equal. apply IH. exact Hrest.
Qed.

(** X2: fields written out with commas between them are read back as they
    were: a list of at most N fields, none of them empty or with a comma or
    a tab inside, is what the tokenizer returns for the line made of them. *)
Theorem openvpn_strsplit_join (toks : list string) (N : nat) :
  (1 <= N)%nat ->
  (List.length toks <= N)%nat ->
  Forall (fun t => t <> EmptyString /\
                   all_chars (fun c => negb (is_delim delimiters c)) t = true) toks ->
  openvpn_strsplit (String.concat "," toks) N = toks.
Proof.
  intros HN Hlen Hclean. unfold openvpn_strsplit.
  rewrite strsplit_loop_spec by lia.
  rewrite (split_at_delims_concat toks Hclean).
  apply firstn_all2. lia.
Qed.

Lemma openvpn_strsplit_join_witness :
  (1 <= 20)%nat /\
  (List.length ["CLIENT_LIST"; "alice"; "10.8.0.2"; "4711"; "815"] <= 20)%nat /\
  openvpn_strsplit "CLIENT_LIST,alice,10.8.0.2,4711,815" 20
  = ["CLIENT_LIST"; "alice"; "10.8.0.2"; "4711"; "815"].
Proof.
  split; [lia|]. split; [simpl; lia|].
  apply (openvpn_strsplit_join
           ["CLIENT_LIST"; "alice"; "10.8.0.2"; "4711"; "815"] 20).
  - lia.
  - simpl; lia.
  - repeat constructor; discriminate.
Defined.

(** ** What the readers dispatch *)

Lemma clamp_ll_range (z : Z) : in_derive_range (clamp_ll z).
Proof.
  unfold in_derive_range, clamp_ll.
  destruct (Z.ltb_spec z LLONG_MIN); [unfold LLONG_MIN, LLONG_MAX; lia|].
  destruct (Z.ltb_spec LLONG_MAX z); [unfold LLONG_MIN, LLONG_MAX in *; lia|].
  lia.
Qed.

Lemma atoll_range (s : string) : in_derive_range (atoll s).
Proof.
  unfold atoll. destruct (skip_space s) as [|c s']; [apply clamp_ll_range|].
  destruct (Ascii.eqb c "-"); [apply clamp_ll_range|].
  destruct (Ascii.eqb c "+"); apply clamp_ll_range.
Qed.

Lemma derive_wrap_in_range (z : Z) : in_derive_range (derive_wrap z).
Proof.
  pose proof (derive_wrap_range z).
  unfold in_derive_range, LLONG_MIN, LLONG_MAX. lia.
Qed.

Section Dispatch.
Context {host : Host}.
Variable cfg : config.
Variable name : string.

Lemma iostats_submit_well_formed (pinst tinst : option string) (rx tx : Z) :
  in_derive_range rx -> in_derive_range tx ->
  well_formed_value_list (iostats_submit pinst tinst rx tx).
Proof.
  intros Hrx Htx. split; [reflexivity|]. left. exists rx, tx.
  repeat split; try assumption; try apply Hrx; try apply Htx.
  left. reflexivity.
Qed.

Lemma compression_submit_well_formed (pinst tinst : option string) (u c : Z) :
  in_derive_range u -> in_derive_range c ->
  well_formed_value_list (compression_submit pinst tinst u c).
Proof.
  intros Hu Hc. split; [reflexivity|]. left. exists u, c.
  repeat split; try apply Hu; try apply Hc. right. reflexivity.
Qed.

Lemma numusers_submit_well_formed (pinst tinst : option string) (n : Z) :
  0 <= n -> well_formed_value_list (numusers_submit pinst tinst n).
Proof.
  intros Hn. split; [reflexivity|]. right. exists n.
  repeat split; [exact Hn].
Qed.

Lemma client_submit_well_formed (cname : string) (rx tx : Z) :
  in_derive_range rx -> in_derive_range tx ->
  well_formed_value_list (client_submit cfg name cname rx tx).
Proof.
  intros Hrx Htx. unfold client_submit.
  destruct (new_naming_schema cfg); apply iostats_submit_well_formed; assumption.
Qed.

(** What a pass of the loop of [multi1_read] can do. *)
Lemma multi1_body_cases (s : multi1_state) (buffer : string) :
  multi1_body cfg name s buffer = Break s \/
  multi1_body cfg name s buffer
  = Continue (mkMulti1 (m1_sum_users s) true (m1_out s)) \/
  multi1_body cfg name s buffer = Continue s \/
  (m1_found_header s = true /\
   exists cname rx tx,
     in_derive_range rx /\ in_derive_range tx /\
     multi1_body cfg name s buffer
     = Continue
         (mkMulti1
            (if collect_user_count cfg then m1_sum_users s + 1 else m1_sum_users s)
            true
            (if collect_individual_users cfg then
               (m1_out s ++ [client_submit cfg name cname rx tx])%list
             else m1_out s))).
Proof.
  unfold multi1_body.
  destruct (strcmp0 buffer (ln "ROUTING TABLE")); [auto|].
  destruct (strcmp0 buffer V1HEADER); [auto|].
  destruct (m1_found_header s) eqn:F; cbn [negb]; [|auto].
  destruct (_ <? 4); [auto|].
  right. right. right. split; [reflexivity|].
  eexists _, _, _. split; [apply atoll_range|]. split; [apply atoll_range|].
  reflexivity.
Qed.

(** What a pass of the loop of [multi2_read] can do. *)
Lemma multi2_body_cases (s : multi2_state) (buffer : string) :
  (m2_found_header s = false /\
   (multi2_body cfg name s buffer = Continue s \/
    (exists c r t,
       multi2_body cfg name s buffer
       = Break (mkMulti2 (m2_sum_users s) false c r t (columns s) (m2_out s))) \/
    (exists c r t n,
       multi2_body cfg name s buffer
       = Continue (mkMulti2 (m2_sum_users s) true c r t n (m2_out s))))) \/
  (m2_found_header s = true /\
   (multi2_body cfg name s buffer = Break s \/
    multi2_body cfg name s buffer
    = Return (mkOutcome (-1) (m2_out s) [ERROR_fields_count_mismatch name]) \/
    exists cname rx tx,
      in_derive_range rx /\ in_derive_range tx /\
      multi2_body cfg name s buffer
      = Continue
          (mkMulti2
             (if collect_user_count cfg then m2_sum_users s + 1 else m2_sum_users s)
             true (idx_cname s) (idx_bytes_recv s) (idx_bytes_sent s) (columns s)
             (if collect_individual_users cfg then
                (m2_out s ++ [client_submit cfg name cname rx tx])%list
              else m2_out s)))).
Proof.
  unfold multi2_body. destruct (m2_found_header s) eqn:F; cbn [negb].
  - right. split; [reflexivity|].
    destruct (_ || _); [auto|].
    destruct (negb _); [auto|].
    right. right. eexists _, _, _.
    split; [apply atoll_range|]. split; [apply atoll_range|]. reflexivity.
  - left. split; [reflexivity|].
    destruct (_ <? 2); [auto|].
    destruct (negb (strcmp0 _ "HEADER")); [auto|].
    destruct (negb (strcmp0 _ "CLIENT_LIST")); [auto|].
    destruct (header_columns _ _ _) as [[c r] t].
    destruct (_ || _); [right; left; eauto | right; right; eauto].
Qed.

End Dispatch.

Section ReaderInvariants.
Context {host : Host}.
Variable cfg : config.
Variable name : string.

Lemma multi1_inv_step (s s' : multi1_state) (buffer : string) :
  multi1_inv cfg s ->
  multi1_body cfg name s buffer = Continue s' \/
  multi1_body cfg name s buffer = Break s' ->
  multi1_inv cfg s'.
Proof.
  intros (I1 & I2 & I3 & I4 & I5) H.
  destruct (multi1_body_cases cfg name s buffer)
    as [E|[E|[E|(F & cname & rx & tx & Hrx & Htx & E)]]];
    rewrite E in H; destruct H as [H|H]; inversion H; subst; clear H.
  - repeat split; assumption.
  - repeat split; try assumption. discriminate.
  - repeat split; assumption.
  - split; [discriminate|]. cbn [m1_sum_users m1_out].
    split; [destruct (collect_user_count cfg); lia|].
    split.
    + destruct (collect_individual_users cfg); [|exact I3].
      apply Forall_app. split; [exact I3|].
      constructor; [|constructor].
      apply client_submit_well_formed; assumption.
    + split.
      * intros U V. rewrite U, V. rewrite length_app. cbn [List.length].
        rewrite (I4 U V). lia.
      * intros V. rewrite V. exact (I5 V).
Qed.

Lemma multi1_read_invariant (fh : FILE) :
  exists s fh',
    read_lines (multi1_body cfg name) fh multi1_init = Some (Leave s, fh') /\
    multi1_read cfg name fh = Some (multi1_finish cfg name s fh') /\
    multi1_inv cfg s.
Proof.
  destruct (read_lines_total (multi1_body cfg name) fh multi1_init)
    as (e & fh' & E).
  assert (Hstep : forall s buffer, multi1_inv cfg s ->
            match multi1_body cfg name s buffer with
            | Continue s' => multi1_inv cfg s'
            | Break s' => multi1_inv cfg s'
            | Return _ => False
            end).
  { intros s buffer HP.
    pose proof (multi1_inv_step s) as St.
    destruct (multi1_body cfg name s buffer) as [s'|s'|r] eqn:B.
    - apply (St s' buffer HP). left. exact B.
    - apply (St s' buffer HP). right. exact B.
    - destruct (multi1_body_cases cfg name s buffer)
        as [X|[X|[X|(_ & ? & ? & ? & _ & _ & X)]]]; congruence. }
  pose proof (while_fgets_invariant (multi1_body cfg name)
                (multi1_inv cfg) (multi1_inv cfg) (fun _ => False) (fun s H => H) Hstep)
    as W.
  assert (I0 : multi1_inv cfg multi1_init).
  { repeat split; try reflexivity; try constructor; cbn; lia. }
  specialize (W _ _ _ _ _ I0 E).
  destruct e as [s|r]; [|contradiction].
  exists s, fh'. split; [exact E|]. split; [|exact W].
  unfold multi1_read. rewrite E. reflexivity.
Qed.

Lemma multi2_inv_step (s s' : multi2_state) (buffer : string) :
  multi2_inv cfg s ->
  multi2_body cfg name s buffer = Continue s' \/
  multi2_body cfg name s buffer = Break s' ->
  multi2_inv cfg s'.
Proof.
  intros (I1 & I2 & I3 & I4 & I5) H.
  destruct (multi2_body_cases cfg name s buffer)
    as [(F & [E|[(c & r & t & E)|(c & r & t & n & E)]])
       |(F & [E|[E|(cname & rx & tx & Hrx & Htx & E)]])];
    rewrite E in H; destruct H as [H|H]; inversion H; subst; clear H.
  - repeat split; assumption.
  - repeat split; try assumption; cbn [m2_out]; auto.
  - repeat split; try assumption; cbn [m2_out m2_found_header]; auto;
      discriminate.
  - repeat split; assumption.
  - split; [discriminate|]. cbn [m2_sum_users m2_out].
    split; [destruct (collect_user_count cfg); lia|].
    split.
    + destruct (collect_individual_users cfg); [|exact I3].
      apply Forall_app. split; [exact I3|].
      constructor; [|constructor].
      apply client_submit_well_formed; assumption.
    + split.
      * intros U V. rewrite U, V. rewrite length_app. cbn [List.length].
        rewrite (I4 U V). lia.
      * intros V. rewrite V. exact (I5 V).
Qed.

Lemma multi2_read_invariant (fh : FILE) :
  exists s,
    multi2_inv cfg s /\
    ((exists fh',
        read_lines (multi2_body cfg name) fh multi2_init = Some (Leave s, fh') /\
        multi2_read cfg name fh = Some (multi2_finish cfg name s fh')) \/
     (m2_found_header s = true /\
      multi2_read cfg name fh
      = Some (mkOutcome (-1) (m2_out s) [ERROR_fields_count_mismatch name]))).
Proof.
  destruct (read_lines_total (multi2_body cfg name) fh multi2_init)
    as (e & fh' & E).
  set (Q := fun r : outcome =>
              exists s, multi2_inv cfg s /\ m2_found_header s = true /\
                        r = mkOutcome (-1) (m2_out s)
                              [ERROR_fields_count_mismatch name]).
  assert (Hstep : forall s buffer, multi2_inv cfg s ->
            match multi2_body cfg name s buffer with
            | Continue s' => multi2_inv cfg s'
            | Break s' => multi2_inv cfg s'
            | Return r => Q r
            end).
  { intros s buffer HP.
    pose proof (multi2_inv_step s) as St.
    destruct (multi2_body cfg name s buffer) as [s'|s'|r] eqn:B.
    - apply (St s' buffer HP). left. exact B.
    - apply (St s' buffer HP). right. exact B.
    - destruct (multi2_body_cases cfg name s buffer)
        as [(F & [X|[(? & ? & ? & X)|(? & ? & ? & ? & X)]])
           |(F & [X|[X|(? & ? & ? & _ & _ & X)]])]; try congruence.
      exists s. split; [exact HP|]. split; [exact F|]. congruence. }
  pose proof (while_fgets_invariant (multi2_body cfg name)
                (multi2_inv cfg) (multi2_inv cfg) Q (fun s H => H) Hstep) as W.
  assert (I0 : multi2_inv cfg multi2_init).
  { repeat split; try reflexivity; try constructor; cbn; lia. }
  specialize (W _ _ _ _ _ I0 E).
  destruct e as [s|r].
  - exists s. split; [exact W|]. left. exists fh'. split; [exact E|].
    unfold multi2_read. rewrite E. reflexivity.
  - destruct W as (s & HI & F & ->). exists s. split; [exact HI|]. right.
    split; [exact F|]. unfold multi2_read. rewrite E. reflexivity.
Qed.

Lemma single_body_in_range (a : single_acc) (buffer : string) :
  acc_in_range a ->
  exists a', single_body a buffer = Continue a' /\ acc_in_range a'.
Proof.
  intros (H1 & H2 & H3 & H4 & H5 & H6 & H7 & H8).
  pose proof (atoll_range (field (openvpn_strsplit buffer 4) 1)) as Hv.
  unfold single_body.
  repeat match goal with
         | |- context [if ?b then _ else _] => destruct b
         end;
    eexists; (split; [reflexivity|]);
    unfold acc_in_range;
    cbn [link_rx link_tx tun_rx tun_tx pre_compress post_compress
         pre_decompress post_decompress
         set_link_rx set_link_tx set_tun_rx set_tun_tx set_pre_compress
         set_post_compress set_pre_decompress set_post_decompress];
    repeat match goal with |- _ /\ _ => split end; assumption.
Qed.

Lemma single_read_invariant (fh : FILE) :
  exists a,
    single_read cfg name fh = Some (single_finish cfg name a) /\ acc_in_range a.
Proof.
  destruct (read_lines_total single_body fh single_init) as (e & fh' & E).
  assert (Hstep : forall a buffer, acc_in_range a ->
            match single_body a buffer with
            | Continue a' => acc_in_range a'
            | Break a' => acc_in_range a'
            | Return _ => False
            end).
  { intros a buffer HP.
    destruct (single_body_in_range a buffer HP) as (a' & B & HI).
    rewrite B. exact HI. }
  pose proof (while_fgets_invariant single_body acc_in_range acc_in_range
                (fun _ => False) (fun s H => H) Hstep) as W.
  assert (I0 : acc_in_range single_init).
  { unfold acc_in_range, in_derive_range, LLONG_MIN, LLONG_MAX. cbn. lia. }
  specialize (W _ _ _ _ _ I0 E).
  destruct e as [a|r]; [|contradiction].
  exists a. split; [|exact W]. unfold single_read. rewrite E. reflexivity.
Qed.

End ReaderInvariants.

(** X3: a call of the read callback returns 0 or -1, whatever the file. It
    logs at most one message, and none when it returns 0. When it logs a
    warning or a notice (the file cannot be opened or is empty, the format
    or the header is not recognised), it has dispatched nothing; value
    lists are left behind by a failing call only together with the fields
    count error, or with no message at all. *)
Theorem openvpn_read_outcomes {host : Host} (cfg : config) (fopen : filesystem)
  (st : vpn_status_t) :
  exists o,
    openvpn_read cfg fopen st = Some o /\
    (ret o = 0 \/ ret o = -1) /\
    (ret o = 0 -> logged o = []) /\
    (List.length (logged o) <= 1)%nat /\
    (forall m, In m (logged o) ->
       dispatched o = [] \/ m = ERROR_fields_count_mismatch (name st)).
Proof.
  unfold openvpn_read.
  destruct (fopen (file st)) as [fh|].
  2:{ eexists. split; [reflexivity|]. cbn. repeat split; auto; discriminate. }
  destruct (fgets 1024 fh) as [[buffer|] fh'].
  2:{ eexists. split; [reflexivity|]. cbn. repeat split; auto; discriminate. }
  destruct (strcmp0 (c_str buffer) TITLE_SINGLE).
  { destruct (single_read_invariant cfg (name st) fh') as (a & E & _).
    eexists. split; [exact E|]. cbn. repeat split; auto. intros m []. }
  destruct (strcmp0 (c_str buffer) TITLE_V1).
  { destruct (multi1_read_invariant cfg (name st) fh')
      as (s & fh2 & _ & E & (I1 & _)).
    eexists. split; [exact E|]. unfold multi1_finish.
    destruct (ferror fh2).
    - cbn. repeat split; auto. intros m [].
    - destruct (m1_found_header s); cbn [negb].
      + cbn. repeat split; auto. intros m [].
      + cbn. rewrite (I1 eq_refl). repeat split; auto. discriminate. }
  destruct (strncmp0 (c_str buffer) TITLE_V2).
  { destruct (multi2_read_invariant cfg (name st) fh')
      as (s & (I1 & _) & [(fh2 & _ & E)|(F & E)]).
    - eexists. split; [exact E|]. unfold multi2_finish.
      destruct (ferror fh2).
      + cbn. repeat split; auto. intros m [].
      + destruct (m2_found_header s); cbn [negb].
        * cbn. repeat split; auto. intros m [].
        * cbn. rewrite (I1 eq_refl). repeat split; auto. discriminate.
    - eexists. split; [exact E|]. cbn. repeat split; auto; try discriminate.
      intros m [<-|[]]. right. reflexivity. }
  eexists. split; [reflexivity|]. cbn. repeat split; auto; discriminate.
Qed.

(** X4: with the user count and the samples per client both switched on, a
    pass of either multi-client reader that returns 0 has dispatched the
    client samples first and the user count last, and the count is the
    number of those samples. *)
Theorem multi_user_count_matches {host : Host} (cfg : config) (name : string) :
  collect_user_count cfg = true ->
  collect_individual_users cfg = true ->
  (forall fh, exists o,
     multi1_read cfg name fh = Some o /\
     (ret o = 0 ->
      exists samples,
        dispatched o
        = (samples ++ [numusers_submit (Some name) (Some name)
                         (Z.of_nat (List.length samples))])%list)) /\
  (forall fh, exists o,
     multi2_read cfg name fh = Some o /\
     (ret o = 0 ->
      exists samples,
        dispatched o
        = (samples ++ [numusers_submit (Some name) (Some name)
                         (Z.of_nat (List.length samples))])%list)).
Proof.
  intros U V. split; intros fh.
  - destruct (multi1_read_invariant cfg name fh)
      as (s & fh2 & _ & E & (_ & _ & _ & I4 & _)).
    eexists. split; [exact E|]. unfold multi1_finish.
    destruct (ferror fh2); [cbn; discriminate|].
    destruct (m1_found_header s); cbn [negb]; [|cbn; discriminate].
    intros _. cbn [dispatched]. rewrite U, (I4 U V). eauto.
  - destruct (multi2_read_invariant cfg name fh)
      as (s & (_ & _ & _ & I4 & _) & [(fh2 & _ & E)|(F & E)]).
    + eexists. split; [exact E|]. unfold multi2_finish.
      destruct (ferror fh2); [cbn; discriminate|].
      destruct (m2_found_header s); cbn [negb]; [|cbn; discriminate].
      intros _. cbn [dispatched]. rewrite U, (I4 U V). eauto.
    + eexists. split; [exact E|]. cbn. discriminate.
Qed.

Lemma multi_user_count_matches_witness :
  collect_user_count (mkConfig false true true true) = true /\
  collect_individual_users (mkConfig false true true true) = true /\
  exists o,
    @multi1_read host128 (mkConfig false true true true) "vpn"
      (stream_of (V1HEADER ++ ln "a,1.2.3.4,1,2" ++ ln "b,1.2.3.5,3,4"
                  ++ ln "ROUTING TABLE")) = Some o /\
    (ret o = 0 ->
     exists samples,
       dispatched o
       = (samples ++ [@numusers_submit host128 (Some "vpn") (Some "vpn")
                        (Z.of_nat (List.length samples))])%list).
Proof.
  split; [reflexivity|]. split; [reflexivity|].
  exact (proj1 (@multi_user_count_matches host128 (mkConfig false true true true)
                  "vpn" eq_refl eq_refl) _).
Defined.

(** X5: with the user count and the samples per client both switched off,
    the multi-client readers dispatch nothing, whatever the file holds.
    [openvpn_init] refuses such a configuration only when compression is
    switched off as well, although [single_read] would still dispatch its
    traffic and overhead samples then. *)
Theorem multi_readers_silent {host : Host} (cfg : config) (name : string) :
  collect_user_count cfg = false ->
  collect_individual_users cfg = false ->
  (forall fh, exists o,
     multi1_read cfg name fh = Some o /\ dispatched o = []) /\
  (forall fh, exists o,
     multi2_read cfg name fh = Some o /\ dispatched o = []) /\
  (forall fh, exists o,
     single_read cfg name fh = Some o /\ ret o = 0 /\
     List.length (dispatched o)
     = if collect_compression cfg then 4%nat else 2%nat) /\
  (openvpn_init cfg = -1 <-> collect_compression cfg = false).
Proof.
  intros U V. split; [|split; [|split]].
  - intros fh.
    destruct (multi1_read_invariant cfg name fh)
      as (s & fh2 & _ & E & (_ & _ & _ & _ & I5)).
    eexists. split; [exact E|]. unfold multi1_finish.
    rewrite U, (I5 V).
    destruct (ferror fh2); [reflexivity|].
    destruct (m1_found_header s); reflexivity.
  - intros fh.
    destruct (multi2_read_invariant cfg name fh)
      as (s & (_ & _ & _ & _ & I5) & [(fh2 & _ & E)|(F & E)]).
    + eexists. split; [exact E|]. unfold multi2_finish.
      rewrite U, (I5 V).
      destruct (ferror fh2); [reflexivity|].
      destruct (m2_found_header s); reflexivity.
    + eexists. split; [exact E|]. cbn. exact (I5 V).
  - intros fh. destruct (single_read_invariant cfg name fh) as (a & E & _).
    eexists. split; [exact E|]. split; [reflexivity|].
    cbn. destruct (collect_compression cfg); reflexivity.
  - unfold openvpn_init. rewrite U, V.
    destruct (collect_compression cfg); cbn; split; congruence.
Qed.

Lemma multi_readers_silent_witness :
  collect_user_count (mkConfig false true false false) = false /\
  collect_individual_users (mkConfig false true false false) = false /\
  exists o,
    @multi2_read host128 (mkConfig false true false false) "vpn"
      (stream_of
         (ln "HEADER,CLIENT_LIST,Common Name,Bytes Received,Bytes Sent,Since" ++
          ln "CLIENT_LIST,alice,4711,815,now")) = Some o /\
    dispatched o = [].
Proof.
  split; [reflexivity|]. split; [reflexivity|].
  exact (proj1 (proj2 (@multi_readers_silent host128
                         (mkConfig false true false false) "vpn"
                         eq_refl eq_refl)) _).
Defined.

(** X6: every value list that a call of the read callback dispatches has
    the plugin name openvpn and is either a pair of counters of type
    if_octets or compression, both within the signed 64-bit range, or a
    single gauge of type users that is not negative. *)
Theorem openvpn_read_well_formed {host : Host} (cfg : config)
  (fopen : filesystem) (st : vpn_status_t) :
  exists o,
    openvpn_read cfg fopen st = Some o /\
    Forall well_formed_value_list (dispatched o).
Proof.
  unfold openvpn_read.
  destruct (fopen (file st)) as [fh|]; [|eexists; split; [reflexivity|constructor]].
  destruct (fgets 1024 fh) as [[buffer|] fh'];
    [|eexists; split; [reflexivity|constructor]].
  destruct (strcmp0 (c_str buffer) TITLE_SINGLE).
  { destruct (single_read_invariant cfg (name st) fh')
      as (a & E & (H1 & H2 & H3 & H4 & H5 & H6 & H7 & H8)).
    eexists. split; [exact E|]. cbn [dispatched single_finish].
    apply Forall_app. split.
    - constructor; [apply iostats_submit_well_formed; assumption|].
      constructor; [|constructor].
      apply iostats_submit_well_formed; apply derive_wrap_in_range.
    - destruct (collect_compression cfg); [|constructor].
      constructor; [apply compression_submit_well_formed; assumption|].
      constructor; [apply compression_submit_well_formed; assumption|].
      constructor. }
  destruct (strcmp0 (c_str buffer) TITLE_V1).
  { destruct (multi1_read_invariant cfg (name st) fh')
      as (s & fh2 & _ & E & (_ & I2 & I3 & _)).
    eexists. split; [exact E|]. unfold multi1_finish.
    destruct (ferror fh2); [exact I3|].
    destruct (m1_found_header s); cbn [negb dispatched]; [|exact I3].
    apply Forall_app. split; [exact I3|].
    destruct (collect_user_count cfg); [|constructor].
    constructor; [|constructor]. apply numusers_submit_well_formed. exact I2. }
  destruct (strncmp0 (c_str buffer) TITLE_V2).
  { destruct (multi2_read_invariant cfg (name st) fh')
      as (s & (_ & I2 & I3 & _) & [(fh2 & _ & E)|(F & E)]).
    - eexists. split; [exact E|]. unfold multi2_finish.
      destruct (ferror fh2); [exact I3|].
      destruct (m2_found_header s); cbn [negb dispatched]; [|exact I3].
      apply Forall_app. split; [exact I3|].
      destruct (collect_user_count cfg); [|constructor].
      constructor; [|constructor]. apply numusers_submit_well_formed. exact I2.
    - eexists. split; [exact E|]. exact I3. }
  eexists. split; [reflexivity|constructor].
Qed.

(** ** Where the multi-client readers stop *)

Section ReaderStops.
Context {host : Host}.
Variable cfg : config.
Variable name : string.

Lemma multi1_inv_iterate (k : nat) (fh fh1 : FILE) (s : multi1_state) :
  iterate_lines (multi1_body cfg name) k fh multi1_init = Some (fh1, s) ->
  multi1_inv cfg s.
Proof.
  apply (iterate_lines_invariant (multi1_body cfg name) (multi1_inv cfg)).
  - intros s0 buffer s' HP B. apply (multi1_inv_step cfg name s0 s' buffer HP).
    left. exact B.
  - repeat split; try reflexivity; try constructor; cbn; lia.
Qed.

Lemma multi2_inv_iterate (k : nat) (fh fh1 : FILE) (s : multi2_state) :
  iterate_lines (multi2_body cfg name) k fh multi2_init = Some (fh1, s) ->
  multi2_inv cfg s.
Proof.
  apply (iterate_lines_invariant (multi2_body cfg name) (multi2_inv cfg)).
  - intros s0 buffer s' HP B. apply (multi2_inv_step cfg name s0 s' buffer HP).
    left. exact B.
  - repeat split; try reflexivity; try constructor; cbn; lia.
Qed.

(** Until the header is accepted the column indexes are 0; from then on
    they lie behind field 0 and inside a row of the expected length. *)
Lemma multi2_indexes_iterate (k : nat) (fh fh1 : FILE) (s : multi2_state) :
  iterate_lines (multi2_body cfg name) k fh multi2_init = Some (fh1, s) ->
  (m2_found_header s = false ->
   idx_cname s = 0 /\ idx_bytes_recv s = 0 /\ idx_bytes_sent s = 0) /\
  (m2_found_header s = true ->
   0 < idx_cname s < columns s /\
   0 < idx_bytes_recv s < columns s /\
   0 < idx_bytes_sent s < columns s).
Proof.
  apply (iterate_lines_invariant (multi2_body cfg name)
           (fun s => (m2_found_header s = false ->
                      idx_cname s = 0 /\ idx_bytes_recv s = 0 /\
                      idx_bytes_sent s = 0) /\
                     (m2_found_header s = true ->
                      0 < idx_cname s < columns s /\
                      0 < idx_bytes_recv s < columns s /\
                      0 < idx_bytes_sent s < columns s))).
  - intros s0 buffer s' [P0 P1] B.
    destruct (m2_found_header s0) eqn:F.
    + destruct (multi2_body_keeps_columns cfg name s0 s' buffer F B)
        as (F' & C & I1 & I2 & I3).
      split; [congruence|]. intros _. rewrite C, I1, I2, I3. exact (P1 eq_refl).
    + destruct (P0 eq_refl) as (Z1 & Z2 & Z3).
      destruct (m2_found_header s') eqn:F'.
      * split; [discriminate|]. intros _.
        exact (multi2_body_header_indexes cfg name s0 s' buffer F Z1 Z2 Z3 B F').
      * split; [|discriminate]. intros _.
        destruct (multi2_body_cases cfg name s0 buffer)
          as [(_ & [X|[(? & ? & ? & X)|(? & ? & ? & ? & X)]])|(F2 & _)];
          try congruence.
        -- rewrite X in B. inversion B; subst. auto.
        -- rewrite X in B. inversion B; subst. cbn in F'. discriminate F'.
  - split; [intros _; repeat split; reflexivity | discriminate].
Qed.

(** X7: the line ROUTING TABLE ends a pass of [multi1_read]. What follows
    it in the file is not read, a read error behind it does not matter,
    and the call returns what the lines before it amount to: with the
    header among them 0, with their samples and, when it is collected, the
    user count; without the header -1 and the notice, with no sample. *)
Theorem multi1_routing_table_ends (k : nat) (fh fh1 fh2 : FILE)
  (s : multi1_state) (buffer : string) :
  iterate_lines (multi1_body cfg name) k fh multi1_init = Some (fh1, s) ->
  error_ind fh = false ->
  fgets 1024 fh1 = (Some buffer, fh2) ->
  c_str buffer = ln "ROUTING TABLE" ->
  multi1_read cfg name fh
  = Some (if m1_found_header s then
            mkOutcome 0
              (m1_out s ++
               (if collect_user_count cfg then
                  [numusers_submit (Some name) (Some name) (m1_sum_users s)]
                else []))%list
              []
          else mkOutcome (-1) [] [NOTICE_unknown_format_instance name]).
Proof.
  intros Hiter Herr Hgets Hline.
  pose proof (multi1_inv_iterate k fh fh1 s Hiter) as (I1 & _).
  pose proof (iterate_lines_error_ind _ _ _ _ _ _ Hiter) as E1.
  pose proof (fgets_some_error_ind _ _ _ Hgets) as E2.
  unfold multi1_read.
  rewrite (read_lines_iterate _ _ _ _ _ _ Hiter), read_lines_step, Hgets, Hline.
  cbn [multi1_body strcmp0 String.eqb].
  replace (multi1_body cfg name s (ln "ROUTING TABLE")) with
    (@Break multi1_state outcome s) by reflexivity.
  unfold multi1_finish, ferror. rewrite E2, E1, Herr.
  destruct (m1_found_header s); cbn [negb]; [reflexivity|].
  rewrite (I1 eq_refl). reflexivity.
Qed.

End ReaderStops.

Lemma multi1_routing_table_ends_witness :
  let fh := mkFILE (ln "noise" ++ V1HEADER ++ ln "alice,1.2.3.4,4711,815" ++
                    ln "ROUTING TABLE" ++ ln "alice,10.8.0.2,1.2.3.4") true false in
  let fh1 := mkFILE (ln "ROUTING TABLE" ++ ln "alice,10.8.0.2,1.2.3.4") true false in
  let s := mkMulti1 0 true [@iostats_submit host128 (Some "alice") None 4711 815] in
  iterate_lines (@multi1_body host128 initial_config "vpn") 3 fh multi1_init
  = Some (fh1, s) /\
  error_ind fh = false /\
  fgets 1024 fh1
  = (Some (ln "ROUTING TABLE"), mkFILE (ln "alice,10.8.0.2,1.2.3.4") true false) /\
  c_str (ln "ROUTING TABLE") = ln "ROUTING TABLE" /\
  @multi1_read host128 initial_config "vpn" fh
  = Some (mkOutcome 0 [@iostats_submit host128 (Some "alice") None 4711 815] []).
Proof.
  cbv zeta. split; [reflexivity|]. split; [reflexivity|]. split; [reflexivity|].
  split; [reflexivity|].
  exact (@multi1_routing_table_ends host128 initial_config "vpn" 3
    (mkFILE (ln "noise" ++ V1HEADER ++ ln "alice,1.2.3.4,4711,815" ++
             ln "ROUTING TABLE" ++ ln "alice,10.8.0.2,1.2.3.4") true false)
    (mkFILE (ln "ROUTING TABLE" ++ ln "alice,10.8.0.2,1.2.3.4") true false)
    (mkFILE (ln "alice,10.8.0.2,1.2.3.4") true false)
    (mkMulti1 0 true [@iostats_submit host128 (Some "alice") None 4711 815])
    (ln "ROUTING TABLE") eq_refl eq_refl eq_refl eq_refl).
Defined.

(** The three indexes that the scan of a header ends with. *)
Lemma header_columns_last_index (rest : list string) : forall i c r t,
  header_columns rest i (c, r, t)
  = (match last_index "Common Name" rest with
     | Some p => i + Z.of_nat p - 1 | None => c end,
     match last_index "Bytes Received" rest with
     | Some p => i + Z.of_nat p - 1 | None => r end,
     match last_index "Bytes Sent" rest with
     | Some p => i + Z.of_nat p - 1 | None => t end).
Proof.
  induction rest as [|f rest IH]; intros i c r t; [reflexivity|].
  cbn [header_columns last_index]. unfold strcmp0.
  destruct (String.eqb_spec f "Common Name") as [E1|N1];
    [|destruct (String.eqb_spec f "Bytes Received") as [E2|N2];
      [|destruct (String.eqb_spec f "Bytes Sent") as [E3|N3]]];
    try subst f; rewrite IH;
    repeat match goal with
           | |- context [String.eqb ?a ?b] =>
               let v := eval vm_compute in (String.eqb a b) in
               change (String.eqb a b) with v
           end;
    destruct (last_index "Common Name" rest),
             (last_index "Bytes Received" rest),
             (last_index "Bytes Sent" rest);
    rewrite !pair_equal_spec; repeat split; lia.
Qed.

Lemma header_columns_index (cols : list string) :
  header_columns cols 2 (0, 0, 0)
  = (column_index "Common Name" cols,
     column_index "Bytes Received" cols,
     column_index "Bytes Sent" cols).
Proof.
  rewrite header_columns_last_index. unfold column_index.
  destruct (last_index "Common Name" cols),
           (last_index "Bytes Received" cols),
           (last_index "Bytes Sent" cols);
    rewrite !pair_equal_spec; repeat split; lia.
Qed.

Section Multi2Lines.
Context {host : Host}.
Variable cfg : config.
Variable name : string.

(** A line with the fields HEADER and CLIENT_LIST in front, read before a
    header has been accepted. *)
Lemma multi2_body_header (s : multi2_state) (buffer : string) (cols : list string) :
  m2_found_header s = false ->
  idx_cname s = 0 -> idx_bytes_recv s = 0 -> idx_bytes_sent s = 0 ->
  openvpn_strsplit buffer 20 = "HEADER" :: "CLIENT_LIST" :: cols ->
  multi2_body cfg name s buffer
  = if (column_index "Common Name" cols =? 0)
       || (column_index "Bytes Received" cols =? 0)
       || (column_index "Bytes Sent" cols =? 0)
    then Break (mkMulti2 (m2_sum_users s) false
                  (column_index "Common Name" cols)
                  (column_index "Bytes Received" cols)
                  (column_index "Bytes Sent" cols) (columns s) (m2_out s))
    else Continue (mkMulti2 (m2_sum_users s) true
                     (column_index "Common Name" cols)
                     (column_index "Bytes Received" cols)
                     (column_index "Bytes Sent" cols)
                     (Z.of_nat (List.length cols) + 1) (m2_out s)).
Proof.
  intros F Z1 Z2 Z3 Hs. unfold multi2_body. rewrite F, Hs, Z1, Z2, Z3.
  cbn [negb]. change (skipn 2 ("HEADER" :: "CLIENT_LIST" :: cols)) with cols.
  rewrite header_columns_index.
  destruct (Z.ltb_spec (Z.of_nat (List.length ("HEADER" :: "CLIENT_LIST" :: cols))) 2)
    as [Hlt|Hge]; [cbn [List.length] in Hlt; lia|].
  change (field ("HEADER" :: "CLIENT_LIST" :: cols) 0) with "HEADER".
  change (field ("HEADER" :: "CLIENT_LIST" :: cols) 1) with "CLIENT_LIST".
  change (negb (strcmp0 "HEADER" "HEADER")) with false.
  change (negb (strcmp0 "CLIENT_LIST" "CLIENT_LIST")) with false.
  cbv iota.
  replace (Z.of_nat (List.length ("HEADER" :: "CLIENT_LIST" :: cols)) - 1)
    with (Z.of_nat (List.length cols) + 1) by (cbn [List.length]; lia).
  reflexivity.
Qed.


(** A line that ends the section of client rows. *)
Lemma multi2_body_stop (s : multi2_state) (buffer : string) :
  m2_found_header s = true ->
  field (openvpn_strsplit buffer 20) 0 <> "CLIENT_LIST" ->
  multi2_body cfg name s buffer = Break s.
Proof.
  intros F Hn. unfold multi2_body. rewrite F. cbn [negb].
  apply strcmp0_neq in Hn. rewrite Hn. cbn [negb].
  rewrite orb_true_r. reflexivity.
Qed.

End Multi2Lines.

(** X8: once the header is accepted, a line whose first field is not
    CLIENT_LIST (the next HEADER line, END, a line without fields) ends the
    pass of [multi2_read] as a success. What follows is not read, and the
    call returns 0 with the samples of the rows before and, when it is
    collected, the user count. *)
Theorem multi2_section_ends {host : Host} (cfg : config) (name : string)
  (k : nat) (fh fh1 fh2 : FILE) (s : multi2_state) (buffer : string) :
  iterate_lines (multi2_body cfg name) k fh multi2_init = Some (fh1, s) ->
  error_ind fh = false ->
  m2_found_header s = true ->
  fgets 1024 fh1 = (Some buffer, fh2) ->
  field (openvpn_strsplit (c_str buffer) 20) 0 <> "CLIENT_LIST" ->
  multi2_read cfg name fh
  = Some (mkOutcome 0
            (m2_out s ++
             (if collect_user_count cfg then
                [numusers_submit (Some name) (Some name) (m2_sum_users s)]
              else []))%list
            []).
Proof.
  intros Hiter Herr F Hgets Hstop.
  pose proof (iterate_lines_error_ind _ _ _ _ _ _ Hiter) as E1.
  pose proof (fgets_some_error_ind _ _ _ Hgets) as E2.
  unfold multi2_read.
  rewrite (read_lines_iterate _ _ _ _ _ _ Hiter), read_lines_step, Hgets.
  rewrite (multi2_body_stop cfg name s _ F Hstop).
  unfold multi2_finish, ferror. rewrite E2, E1, Herr, F. reflexivity.
Qed.

Lemma multi2_section_ends_witness :
  let header := ln "HEADER,CLIENT_LIST,Common Name,Bytes Received,Bytes Sent,Since" in
  let row := ln "CLIENT_LIST,alice,4711,815,now" in
  let next := ln "HEADER,ROUTING_TABLE,Virtual Address,Common Name" in
  let fh := mkFILE (header ++ row ++ next ++ ln "ROUTING_TABLE,10.8.0.2,alice") true false in
  let fh1 := mkFILE (next ++ ln "ROUTING_TABLE,10.8.0.2,alice") true false in
  let s := mkMulti2 0 true 1 2 3 5 [@iostats_submit host128 (Some "alice") None 4711 815] in
  iterate_lines (@multi2_body host128 initial_config "vpn") 2 fh multi2_init
  = Some (fh1, s) /\
  error_ind fh = false /\
  m2_found_header s = true /\
  fgets 1024 fh1 = (Some next, mkFILE (ln "ROUTING_TABLE,10.8.0.2,alice") true false) /\
  field (openvpn_strsplit (c_str next) 20) 0 <> "CLIENT_LIST" /\
  @multi2_read host128 initial_config "vpn" fh
  = Some (mkOutcome 0 [@iostats_submit host128 (Some "alice") None 4711 815] []).
Proof.
  cbv zeta. split; [reflexivity|]. split; [reflexivity|]. split; [reflexivity|].
  split; [reflexivity|]. split; [vm_compute; discriminate|].
  refine (@multi2_section_ends host128 initial_config "vpn" 2
    (mkFILE (ln "HEADER,CLIENT_LIST,Common Name,Bytes Received,Bytes Sent,Since" ++
             ln "CLIENT_LIST,alice,4711,815,now" ++
             ln "HEADER,ROUTING_TABLE,Virtual Address,Common Name" ++
             ln "ROUTING_TABLE,10.8.0.2,alice") true false)
    (mkFILE (ln "HEADER,ROUTING_TABLE,Virtual Address,Common Name" ++
             ln "ROUTING_TABLE,10.8.0.2,alice") true false)
    (mkFILE (ln "ROUTING_TABLE,10.8.0.2,alice") true false)
    (mkMulti2 0 true 1 2 3 5 [@iostats_submit host128 (Some "alice") None 4711 815])
    (ln "HEADER,ROUTING_TABLE,Virtual Address,Common Name")
    eq_refl eq_refl eq_refl eq_refl _).
  vm_compute; discriminate.
Defined.

(** X9: the first line with the fields HEADER and CLIENT_LIST in front
    decides. When it does not name all of Common Name, Bytes Received and
    Bytes Sent among its further fields, the pass ends there: the call
    returns -1 with the notice and without a sample, and a complete header
    further down in the file is not looked at. *)
Theorem multi2_incomplete_header {host : Host} (cfg : config) (name : string)
  (k : nat) (fh fh1 fh2 : FILE) (s : multi2_state) (buffer : string)
  (cols : list string) :
  iterate_lines (multi2_body cfg name) k fh multi2_init = Some (fh1, s) ->
  error_ind fh = false ->
  m2_found_header s = false ->
  fgets 1024 fh1 = (Some buffer, fh2) ->
  openvpn_strsplit (c_str buffer) 20 = "HEADER" :: "CLIENT_LIST" :: cols ->
  last_index "Common Name" cols = None \/
  last_index "Bytes Received" cols = None \/
  last_index "Bytes Sent" cols = None ->
  multi2_read cfg name fh
  = Some (mkOutcome (-1) [] [NOTICE_unknown_format_instance name]).
Proof.
  intros Hiter Herr F Hgets Hsplit Hmiss.
  pose proof (iterate_lines_error_ind _ _ _ _ _ _ Hiter) as E1.
  pose proof (fgets_some_error_ind _ _ _ Hgets) as E2.
  destruct (multi2_indexes_iterate cfg name k fh fh1 s Hiter) as [Z0 _].
  destruct (Z0 F) as (Z1 & Z2 & Z3).
  destruct (multi2_inv_iterate cfg name k fh fh1 s Hiter) as (I1 & _).
  unfold multi2_read.
  rewrite (read_lines_iterate _ _ _ _ _ _ Hiter), read_lines_step, Hgets.
  rewrite (multi2_body_header cfg name s _ cols F Z1 Z2 Z3 Hsplit).
  assert (Hz : (column_index "Common Name" cols =? 0)
               || (column_index "Bytes Received" cols =? 0)
               || (column_index "Bytes Sent" cols =? 0) = true).
  { unfold column_index.
    destruct Hmiss as [H|[H|H]]; rewrite H; cbn [Z.eqb];
      rewrite ?orb_true_r; reflexivity. }
  rewrite Hz. unfold multi2_finish, ferror. cbn [m2_found_header m2_out negb].
  rewrite E2, E1, Herr, (I1 F). reflexivity.
Qed.

Lemma multi2_incomplete_header_witness :
  let first := ln "HEADER,CLIENT_LIST,Common Name,Real Address,Connected Since" in
  let second := ln "HEADER,CLIENT_LIST,Common Name,Bytes Received,Bytes Sent,Since" in
  let fh := stream_of (ln "TIME,now" ++ first ++ second ++ ln "CLIENT_LIST,alice,1,2,now") in
  let fh1 := stream_of (first ++ second ++ ln "CLIENT_LIST,alice,1,2,now") in
  iterate_lines (@multi2_body host128 initial_config "vpn") 1 fh multi2_init
  = Some (fh1, multi2_init) /\
  error_ind fh = false /\
  m2_found_header multi2_init = false /\
  fgets 1024 fh1
  = (Some first, stream_of (second ++ ln "CLIENT_LIST,alice,1,2,now")) /\
  openvpn_strsplit (c_str first) 20
  = ["HEADER"; "CLIENT_LIST"; "Common Name"; "Real Address"; ln "Connected Since"] /\
  last_index "Bytes Sent" ["Common Name"; "Real Address"; ln "Connected Since"] = None /\
  @multi2_read host128 initial_config "vpn" fh
  = Some (mkOutcome (-1) [] [NOTICE_unknown_format_instance "vpn"]).
Proof.
  cbv zeta. split; [reflexivity|]. split; [reflexivity|]. split; [reflexivity|].
  split; [reflexivity|]. split; [reflexivity|]. split; [reflexivity|].
  exact (@multi2_incomplete_header host128 initial_config "vpn" 1
    (stream_of (ln "TIME,now" ++
                ln "HEADER,CLIENT_LIST,Common Name,Real Address,Connected Since" ++
                ln "HEADER,CLIENT_LIST,Common Name,Bytes Received,Bytes Sent,Since" ++
                ln "CLIENT_LIST,alice,1,2,now"))
    (stream_of (ln "HEADER,CLIENT_LIST,Common Name,Real Address,Connected Since" ++
                ln "HEADER,CLIENT_LIST,Common Name,Bytes Received,Bytes Sent,Since" ++
                ln "CLIENT_LIST,alice,1,2,now"))
    (stream_of (ln "HEADER,CLIENT_LIST,Common Name,Bytes Received,Bytes Sent,Since" ++
                ln "CLIENT_LIST,alice,1,2,now"))
    multi2_init
    (ln "HEADER,CLIENT_LIST,Common Name,Real Address,Connected Since")
    ["Common Name"; "Real Address"; ln "Connected Since"]
    eq_refl eq_refl eq_refl eq_refl eq_refl
    (or_intror (or_intror eq_refl))).
Defined.

(** X10: on every row that [multi2_read] accepts, the three fields it reads
    exist. After any number of lines with the header accepted, each column
    index is at least 1 (never the CLIENT_LIST mark) and below the expected
    number of columns, so it is inside every row with that many fields. *)
Theorem multi2_indexes_in_row {host : Host} (cfg : config) (name : string)
  (k : nat) (fh fh1 : FILE) (s : multi2_state) (fields : list string) :
  iterate_lines (multi2_body cfg name) k fh multi2_init = Some (fh1, s) ->
  m2_found_header s = true ->
  Z.of_nat (List.length fields) = columns s ->
  (0 < idx_cname s /\ 0 < idx_bytes_recv s /\ 0 < idx_bytes_sent s) /\
  nth_error fields (Z.to_nat (idx_cname s)) = Some (field fields (idx_cname s)) /\
  nth_error fields (Z.to_nat (idx_bytes_recv s))
  = Some (field fields (idx_bytes_recv s)) /\
  nth_error fields (Z.to_nat (idx_bytes_sent s))
  = Some (field fields (idx_bytes_sent s)).
Proof.
  intros Hiter F Hlen.
  destruct (multi2_indexes_iterate cfg name k fh fh1 s Hiter) as [_ B].
  destruct (B F) as (B1 & B2 & B3).
  split; [lia|]. unfold field.
  repeat split; apply nth_error_nth'; lia.
Qed.

Lemma multi2_indexes_in_row_witness :
  let header := ln "HEADER,CLIENT_LIST,Real Address,Bytes Sent,Common Name,Bytes Received,x" in
  let s := mkMulti2 0 true 3 4 2 6 [] in
  let fields := ["CLIENT_LIST"; "1.2.3.4"; "815"; "alice"; "4711"; ln "y"] in
  iterate_lines (@multi2_body host128 initial_config "vpn") 1
    (stream_of (header ++ ln "CLIENT_LIST,1.2.3.4,815,alice,4711,y")) multi2_init
  = Some (stream_of (ln "CLIENT_LIST,1.2.3.4,815,alice,4711,y"), s) /\
  m2_found_header s = true /\
  Z.of_nat (List.length fields) = columns s /\
  nth_error fields (Z.to_nat (idx_cname s)) = Some "alice".
Proof.
  cbv zeta. split; [reflexivity|]. split; [reflexivity|]. split; [reflexivity|].
  exact (proj1 (proj2 (@multi2_indexes_in_row host128 initial_config "vpn" 1
    (stream_of (ln "HEADER,CLIENT_LIST,Real Address,Bytes Sent,Common Name,Bytes Received,x" ++
                ln "CLIENT_LIST,1.2.3.4,815,alice,4711,y"))
    (stream_of (ln "CLIENT_LIST,1.2.3.4,815,alice,4711,y"))
    (mkMulti2 0 true 3 4 2 6 [])
    ["CLIENT_LIST"; "1.2.3.4"; "815"; "alice"; "4711"; ln "y"]
    eq_refl eq_refl eq_refl))).
Defined.

(** ** Files of the expected form *)


Lemma string_app_nil_r (a : string) : a ++ EmptyString = a.
Proof. induction a as [|x a IH]; simpl; [reflexivity|]. rewrite IH. reflexivity. Qed.

Lemma fgets_plain_line (l rest : string) (b e : bool) :
  plain_line l = true ->
  fgets 1024 (mkFILE (ln l ++ rest) b e) = (Some (ln l), mkFILE rest b e).
Proof.
  unfold plain_line. intros H. apply andb_prop in H. destruct H as [H1 H2].
  apply Nat.ltb_lt in H2. apply fgets_line; assumption.
Qed.

Section WellFormedFiles.
Context {host : Host}.
Variable cfg : config.
Variable name : string.

Lemma multi1_body_row (s : multi1_state) (r : string) :
  m1_found_header s = true ->
  v1_row r = true ->
  multi1_body cfg name s (c_str (ln r))
  = Continue
      (mkMulti1
         (if collect_user_count cfg then m1_sum_users s + 1 else m1_sum_users s)
         true
         (if collect_individual_users cfg then
            (m1_out s ++ [v1_row_sample cfg name r])%list
          else m1_out s)).
Proof.
  intros F Hr. unfold v1_row in Hr.
  apply andb_prop in Hr. destruct Hr as [Hr H4].
  apply andb_prop in Hr. destruct Hr as [Hr H3].
  apply andb_prop in Hr. destruct Hr as [_ H2].
  apply negb_true_iff in H2. apply negb_true_iff in H3. apply Nat.leb_le in H4.
  unfold multi1_body. rewrite H2, H3, F. cbn [negb].
  destruct (Z.ltb_spec (Z.of_nat (List.length (openvpn_strsplit (c_str (ln r)) 10))) 4);
    [lia|].
  reflexivity.
Qed.

Lemma multi1_run_rows (rows : list string) : forall s,
  m1_found_header s = true ->
  forallb v1_row rows = true ->
  run_lines (multi1_body cfg name) rows s
  = Some (mkMulti1
            (if collect_user_count cfg
             then m1_sum_users s + Z.of_nat (List.length rows)
             else m1_sum_users s)
            true
            (if collect_individual_users cfg then
               (m1_out s ++ map (v1_row_sample cfg name) rows)%list
             else m1_out s)).
Proof.
  induction rows as [|r rows IH]; intros s F Hrows.
  - cbn [run_lines List.length map Z.of_nat]. rewrite Z.add_0_r, app_nil_r.
    destruct s as [sum found out]. cbn in *. subst found.
    destruct (collect_user_count cfg), (collect_individual_users cfg); reflexivity.
  - cbn [forallb] in Hrows. apply andb_prop in Hrows. destruct Hrows as [Hr Hrows].
    cbn [run_lines]. rewrite (multi1_body_row s r F Hr).
    rewrite IH by (try reflexivity; exact Hrows).
    cbn [m1_sum_users m1_out List.length map].
    destruct (collect_user_count cfg), (collect_individual_users cfg);
      rewrite <- ?app_assoc; cbn [app]; rewrite ?Nat2Z.inj_succ;
      f_equal; f_equal; lia.
Qed.

(** X11: a version 1 list of the expected form. After the header line,
    every client row (a line with at least four fields) gives one value
    list, in the order of the file, with the first field as the client and
    the third and fourth converted as the received and sent bytes; the
    user count, when it is collected, is the number of rows and comes last.
    The line ROUTING TABLE ends the list and the call returns 0. *)
Theorem multi1_read_rows (rows : list string) (rest : string) (b : bool) :
  forallb v1_row rows = true ->
  multi1_read cfg name
    (mkFILE (V1HEADER ++ concat_lines rows ++ ln "ROUTING TABLE" ++ rest) b false)
  = Some (mkOutcome 0
            ((if collect_individual_users cfg
              then map (v1_row_sample cfg name) rows else [])
             ++ (if collect_user_count cfg then
                   [numusers_submit (Some name) (Some name)
                      (Z.of_nat (List.length rows))]
                 else []))%list
            []).
Proof.
  intros Hrows. unfold multi1_read.
  rewrite read_lines_step.
  unfold V1HEADER at 1.
  rewrite (fgets_plain_line _ _ b false) by reflexivity.
  change (multi1_body cfg name multi1_init
            (c_str (ln "Common Name,Real Address,Bytes Received,Bytes Sent,Connected Since")))
    with (@Continue multi1_state outcome (mkMulti1 0 true [])).
  cbv iota.
  assert (Hplain : forallb plain_line rows = true).
  { clear - Hrows. induction rows as [|r rows IH]; [reflexivity|].
    cbn [forallb] in *. apply andb_prop in Hrows. destruct Hrows as [Hr Hrows].
    rewrite (IH Hrows), andb_true_r. unfold v1_row in Hr.
    destruct (plain_line r); [reflexivity | discriminate Hr]. }
  rewrite (read_lines_plain (multi1_body cfg name) rows _ b false _ _ Hplain
             (multi1_run_rows rows (mkMulti1 0 true []) eq_refl Hrows)).
  rewrite read_lines_step.
  rewrite (fgets_plain_line "ROUTING TABLE" rest b false) by reflexivity.
  change (c_str (ln "ROUTING TABLE")) with (ln "ROUTING TABLE").
  match goal with
  | |- context [multi1_body cfg name ?s (ln "ROUTING TABLE")] =>
      change (multi1_body cfg name s (ln "ROUTING TABLE"))
        with (@Break multi1_state outcome s)
  end.
  cbv iota.
  unfold multi1_finish, ferror. cbn [error_ind m1_found_header m1_out m1_sum_users negb].
  destruct (collect_individual_users cfg), (collect_user_count cfg); reflexivity.
Qed.

End WellFormedFiles.

Lemma multi1_read_rows_witness :
  forallb v1_row ["alice,1.2.3.4:1194,4711,815,Thu Jun 18 04:00:00 2015";
                  "bob,5.6.7.8:1194,12x,,7"] = true /\
  @multi1_read host128 initial_config "vpn"
    (mkFILE (V1HEADER ++
             concat_lines ["alice,1.2.3.4:1194,4711,815,Thu Jun 18 04:00:00 2015";
                           "bob,5.6.7.8:1194,12x,,7"] ++
             ln "ROUTING TABLE" ++ ln "Virtual Address,Common Name") true false)
  = Some (mkOutcome 0
            [@iostats_submit host128 (Some "alice") None 4711 815;
             @iostats_submit host128 (Some "bob") None 12 7]
            []).
Proof.
  split; [reflexivity|].
  exact (@multi1_read_rows host128 initial_config "vpn"
           ["alice,1.2.3.4:1194,4711,815,Thu Jun 18 04:00:00 2015";
            "bob,5.6.7.8:1194,12x,,7"]
           (ln "Virtual Address,Common Name") true eq_refl).
Defined.

Section WellFormedFiles2.
Context {host : Host}.
Variable cfg : config.
Variable name : string.





End WellFormedFiles2.

(** ** The naming schema *)

Lemma client_submit_unnamed {host : Host} (cfg cfg' : config)
  (name cname : string) (rx tx : Z) :
  unnamed (client_submit cfg name cname rx tx)
  = unnamed (client_submit cfg' name cname rx tx).
Proof.
  unfold client_submit.
  destruct (new_naming_schema cfg), (new_naming_schema cfg'); reflexivity.
Qed.

Lemma map_unnamed_snoc (l1 l2 : list value_list_t) (x y : value_list_t) :
  map unnamed l1 = map unnamed l2 -> unnamed x = unnamed y ->
  map unnamed (l1 ++ [x]) = map unnamed (l2 ++ [y]).
Proof. intros H1 H2. rewrite !map_app. cbn [map]. rewrite H1, H2. reflexivity. Qed.

Section NamingSchema.
Context {host : Host}.
Variable cfg : config.
Variable b : bool.
Variable name : string.

Let cfg' : config := set_new_naming_schema cfg b.

Lemma multi1_read_unnamed (fh : FILE) :
  exists o1 o2,
    multi1_read cfg name fh = Some o1 /\
    multi1_read cfg' name fh = Some o2 /\
    ret o1 = ret o2 /\ logged o1 = logged o2 /\
    map unnamed (dispatched o1) = map unnamed (dispatched o2).
Proof.
  set (rel := fun s1 s2 : multi1_state =>
                m1_sum_users s1 = m1_sum_users s2 /\
                m1_found_header s1 = m1_found_header s2 /\
                map unnamed (m1_out s1) = map unnamed (m1_out s2)).
  assert (Hstep : forall s1 s2 buffer, rel s1 s2 ->
            match multi1_body cfg name s1 buffer,
                  multi1_body cfg' name s2 buffer with
            | Continue x, Continue y => rel x y
            | Break x, Break y => rel x y
            | Return x, Return y => False
            | _, _ => False
            end).
  { intros [sum1 f1 out1] [sum2 f2 out2] buffer (E1 & E2 & E3).
    cbn in E1, E2, E3. subst sum2 f2.
    unfold multi1_body, cfg'.
    cbn [m1_sum_users m1_found_header m1_out set_new_naming_schema
         collect_user_count collect_individual_users].
    destruct (strcmp0 buffer (ln "ROUTING TABLE")); [repeat split; assumption|].
    destruct (strcmp0 buffer V1HEADER); [repeat split; assumption|].
    destruct f1; cbn [negb]; [|repeat split; assumption].
    destruct (_ <? 4); [repeat split; assumption|].
    split; [reflexivity|]. split; [reflexivity|]. cbn [m1_out].
    destruct (collect_individual_users cfg); [|exact E3].
    apply map_unnamed_snoc; [exact E3 | apply client_submit_unnamed]. }
  pose proof (while_fgets_related _ _ rel (fun _ _ => False) Hstep
                (S (String.length (pending fh))) fh multi1_init multi1_init
                (conj eq_refl (conj eq_refl eq_refl))) as W.
  destruct (read_lines_total (multi1_body cfg name) fh multi1_init)
    as (e1 & f1 & R1).
  destruct (read_lines_total (multi1_body cfg' name) fh multi1_init)
    as (e2 & f2 & R2).
  unfold multi1_read. rewrite R1, R2.
  unfold read_lines in R1, R2. rewrite R1, R2 in W.
  destruct e1 as [s1|r1], e2 as [s2|r2]; try contradiction.
  destruct W as ((E1 & E2 & E3) & <-).
  eexists _, _. split; [reflexivity|]. split; [reflexivity|].
  unfold multi1_finish, cfg'.
  cbn [set_new_naming_schema collect_user_count].
  rewrite <- E1, <- E2.
  destruct (ferror f1); [cbn; auto|].
  destruct (m1_found_header s1); cbn [negb]; [|cbn; auto].
  cbn [ret logged dispatched]. split; [reflexivity|]. split; [reflexivity|].
  rewrite !map_app, E3. reflexivity.
Qed.

Lemma multi2_read_unnamed (fh : FILE) :
  exists o1 o2,
    multi2_read cfg name fh = Some o1 /\
    multi2_read cfg' name fh = Some o2 /\
    ret o1 = ret o2 /\ logged o1 = logged o2 /\
    map unnamed (dispatched o1) = map unnamed (dispatched o2).
Proof.
  set (rel := fun s1 s2 : multi2_state =>
                m2_sum_users s1 = m2_sum_users s2 /\
                m2_found_header s1 = m2_found_header s2 /\
                idx_cname s1 = idx_cname s2 /\
                idx_bytes_recv s1 = idx_bytes_recv s2 /\
                idx_bytes_sent s1 = idx_bytes_sent s2 /\
                columns s1 = columns s2 /\
                map unnamed (m2_out s1) = map unnamed (m2_out s2)).
  set (relr := fun r1 r2 : outcome =>
                 ret r1 = ret r2 /\ logged r1 = logged r2 /\
                 map unnamed (dispatched r1) = map unnamed (dispatched r2)).
  assert (Hstep : forall s1 s2 buffer, rel s1 s2 ->
            match multi2_body cfg name s1 buffer,
                  multi2_body cfg' name s2 buffer with
            | Continue x, Continue y => rel x y
            | Break x, Break y => rel x y
            | Return x, Return y => relr x y
            | _, _ => False
            end).
  { intros [sum1 f1 c1 r1 t1 n1 out1] [sum2 f2 c2 r2 t2 n2 out2] buffer
      (E1 & E2 & E3 & E4 & E5 & E6 & E7).
    cbn in E1, E2, E3, E4, E5, E6, E7. subst sum2 f2 c2 r2 t2 n2.
    unfold multi2_body, cfg'.
    cbn [m2_sum_users m2_found_header m2_out idx_cname idx_bytes_recv
         idx_bytes_sent columns set_new_naming_schema
         collect_user_count collect_individual_users].
    destruct f1; cbn [negb].
    - destruct (_ || _); [repeat split; assumption|].
      destruct (negb _); [repeat split; assumption|].
      repeat (split; [reflexivity|]). cbn [m2_out].
      destruct (collect_individual_users cfg); [|exact E7].
      apply map_unnamed_snoc; [exact E7 | apply client_submit_unnamed].
    - destruct (_ <? 2); [repeat split; assumption|].
      destruct (negb (strcmp0 _ "HEADER")); [repeat split; assumption|].
      destruct (negb (strcmp0 _ "CLIENT_LIST")); [repeat split; assumption|].
      destruct (header_columns _ _ _) as [[c r] t].
      destruct (_ || _); repeat split; assumption. }
  pose proof (while_fgets_related _ _ rel relr Hstep
                (S (String.length (pending fh))) fh multi2_init multi2_init
                (conj eq_refl (conj eq_refl (conj eq_refl (conj eq_refl
                   (conj eq_refl (conj eq_refl eq_refl))))))) as W.
  destruct (read_lines_total (multi2_body cfg name) fh multi2_init)
    as (e1 & f1 & R1).
  destruct (read_lines_total (multi2_body cfg' name) fh multi2_init)
    as (e2 & f2 & R2).
  unfold multi2_read. rewrite R1, R2.
  unfold read_lines in R1, R2. rewrite R1, R2 in W.
  destruct e1 as [s1|r1], e2 as [s2|r2]; try contradiction.
  - destruct W as ((E1 & E2 & _ & _ & _ & _ & E7) & <-).
    eexists _, _. split; [reflexivity|]. split; [reflexivity|].
    unfold multi2_finish, cfg'.
    cbn [set_new_naming_schema collect_user_count].
    rewrite <- E1, <- E2.
    destruct (ferror f1); [cbn; auto|].
    destruct (m2_found_header s1); cbn [negb]; [|cbn; auto].
    cbn [ret logged dispatched]. split; [reflexivity|]. split; [reflexivity|].
    rewrite !map_app, E7. reflexivity.
  - eexists _, _. split; [reflexivity|]. split; [reflexivity|]. exact W.
Qed.

End NamingSchema.

(** X13: the naming schema changes names and nothing else. With the flag
    set either way, a call on the same file returns the same value, logs
    the same messages, and dispatches value lists of the same number and
    order with the same plugin, type and values; only the plugin instance
    and the type instance can differ. *)
Theorem naming_schema_only_names {host : Host} (cfg : config) (b : bool)
  (fopen : filesystem) (st : vpn_status_t) :
  exists o1 o2,
    openvpn_read cfg fopen st = Some o1 /\
    openvpn_read (set_new_naming_schema cfg b) fopen st = Some o2 /\
    ret o1 = ret o2 /\ logged o1 = logged o2 /\
    map unnamed (dispatched o1) = map unnamed (dispatched o2).
Proof.
  unfold openvpn_read.
  destruct (fopen (file st)) as [fh|];
    [|eexists _, _; repeat split; reflexivity].
  destruct (fgets 1024 fh) as [[buffer|] fh'];
    [|eexists _, _; repeat split; reflexivity].
  destruct (strcmp0 (c_str buffer) TITLE_SINGLE).
  { destruct (single_read_finish cfg (name st) fh') as (a & f & R & E).
    exists (single_finish cfg (name st) a),
           (single_finish (set_new_naming_schema cfg b) (name st) a).
    split; [exact E|]. split.
    - unfold single_read. rewrite R. reflexivity.
    - repeat split; reflexivity. }
  destruct (strcmp0 (c_str buffer) TITLE_V1);
    [apply multi1_read_unnamed|].
  destruct (strncmp0 (c_str buffer) TITLE_V2);
    [apply multi2_read_unnamed|].
  eexists _, _; repeat split; reflexivity.
Qed.

Section SamplesForall.
Context {host : Host}.
Variable cfg : config.
Variable name : string.
Variable Q : value_list_t -> Prop.
Hypothesis client_Q : forall cname rx tx, Q (client_submit cfg name cname rx tx).

(** What holds of every client sample holds of all that a multi-client
    reader has collected when it is done. *)
Lemma multi1_out_forall (fh : FILE) :
  exists s fh',
    multi1_read cfg name fh = Some (multi1_finish cfg name s fh') /\
    Forall Q (m1_out s).
Proof.
  destruct (read_lines_total (multi1_body cfg name) fh multi1_init)
    as (e & fh' & E).
  assert (Hstep : forall s buffer, Forall Q (m1_out s) ->
            match multi1_body cfg name s buffer with
            | Continue s' => Forall Q (m1_out s')
            | Break s' => Forall Q (m1_out s')
            | Return _ => False
            end).
  { intros s buffer HP.
    destruct (multi1_body_cases cfg name s buffer)
      as [X|[X|[X|(_ & cname & rx & tx & _ & _ & X)]]]; rewrite X; try exact HP.
    cbn [m1_out]. destruct (collect_individual_users cfg); [|exact HP].
    apply Forall_app. split; [exact HP|]. constructor; [apply client_Q|constructor]. }
  pose proof (while_fgets_invariant (multi1_body cfg name)
                (fun s => Forall Q (m1_out s)) (fun s => Forall Q (m1_out s))
                (fun _ => False) (fun s H => H) Hstep _ fh multi1_init e fh'
                (Forall_nil Q) E) as W.
  destruct e as [s|r]; [|contradiction].
  exists s, fh'. split; [|exact W]. unfold multi1_read. rewrite E. reflexivity.
Qed.

Lemma multi2_out_forall (fh : FILE) :
  exists s,
    Forall Q (m2_out s) /\
    ((exists fh', multi2_read cfg name fh = Some (multi2_finish cfg name s fh')) \/
     multi2_read cfg name fh
     = Some (mkOutcome (-1) (m2_out s) [ERROR_fields_count_mismatch name])).
Proof.
  destruct (read_lines_total (multi2_body cfg name) fh multi2_init)
    as (e & fh' & E).
  set (R := fun r : outcome =>
              exists s, Forall Q (m2_out s) /\
                        r = mkOutcome (-1) (m2_out s)
                              [ERROR_fields_count_mismatch name]).
  assert (Hstep : forall s buffer, Forall Q (m2_out s) ->
            match multi2_body cfg name s buffer with
            | Continue s' => Forall Q (m2_out s')
            | Break s' => Forall Q (m2_out s')
            | Return r => R r
            end).
  { intros s buffer HP.
    destruct (multi2_body_cases cfg name s buffer)
      as [(_ & [X|[(? & ? & ? & X)|(? & ? & ? & ? & X)]])
         |(_ & [X|[X|(cname & rx & tx & _ & _ & X)]])]; rewrite X;
      try exact HP.
    - exists s. split; [exact HP | reflexivity].
    - cbn [m2_out]. destruct (collect_individual_users cfg); [|exact HP].
      apply Forall_app. split; [exact HP|].
      constructor; [apply client_Q|constructor]. }
  pose proof (while_fgets_invariant (multi2_body cfg name)
                (fun s => Forall Q (m2_out s)) (fun s => Forall Q (m2_out s))
                R (fun s H => H) Hstep _ fh multi2_init e fh'
                (Forall_nil Q) E) as W.
  destruct e as [s|r].
  - exists s. split; [exact W|]. left. exists fh'.
    unfold multi2_read. rewrite E. reflexivity.
  - destruct W as (s & HQ & ->). exists s. split; [exact HQ|]. right.
    unfold multi2_read. rewrite E. reflexivity.
Qed.

End SamplesForall.

(** X14: with the improved naming schema every value list of a call, the
    client samples included, carries the name of the status file as its
    plugin instance (cut to the length the daemon allows). *)
Theorem improved_naming_plugin_instance {host : Host} (cfg : config)
  (fopen : filesystem) (st : vpn_status_t) :
  new_naming_schema cfg = true ->
  exists o,
    openvpn_read cfg fopen st = Some o /\
    Forall (fun vl => vl_plugin_instance vl = sstrncpy (name st) DATA_MAX_NAME_LEN)
      (dispatched o).
Proof.
  intros Hnew.
  assert (HQ : forall cname rx tx,
             vl_plugin_instance (client_submit cfg (name st) cname rx tx)
             = sstrncpy (name st) DATA_MAX_NAME_LEN).
  { intros. unfold client_submit. rewrite Hnew. reflexivity. }
  unfold openvpn_read.
  destruct (fopen (file st)) as [fh|]; [|eexists; split; [reflexivity|constructor]].
  destruct (fgets 1024 fh) as [[buffer|] fh'];
    [|eexists; split; [reflexivity|constructor]].
  destruct (strcmp0 (c_str buffer) TITLE_SINGLE).
  { destruct (single_read_finish cfg (name st) fh') as (a & f & _ & E).
    eexists. split; [exact E|]. cbn [dispatched single_finish].
    apply Forall_app. split.
    - repeat constructor.
    - destruct (collect_compression cfg); repeat constructor. }
  destruct (strcmp0 (c_str buffer) TITLE_V1).
  { destruct (multi1_out_forall cfg (name st)
                (fun vl => vl_plugin_instance vl
                           = sstrncpy (name st) DATA_MAX_NAME_LEN) HQ fh')
      as (s & fh2 & E & HF).
    eexists. split; [exact E|]. unfold multi1_finish.
    destruct (ferror fh2); [exact HF|].
    destruct (negb (m1_found_header s)); [exact HF|]. cbn [dispatched].
    apply Forall_app. split; [exact HF|].
    destruct (collect_user_count cfg); repeat constructor. }
  destruct (strncmp0 (c_str buffer) TITLE_V2).
  { destruct (multi2_out_forall cfg (name st)
                (fun vl => vl_plugin_instance vl
                           = sstrncpy (name st) DATA_MAX_NAME_LEN) HQ fh')
      as (s & HF & [(fh2 & E)|E]).
    - eexists. split; [exact E|]. unfold multi2_finish.
      destruct (ferror fh2); [exact HF|].
      destruct (negb (m2_found_header s)); [exact HF|]. cbn [dispatched].
      apply Forall_app. split; [exact HF|].
      destruct (collect_user_count cfg); repeat constructor.
    - eexists. split; [exact E|]. exact HF. }
  eexists. split; [reflexivity|constructor].
Qed.

Lemma improved_naming_plugin_instance_witness :
  let cfg := mkConfig true true true true in
  let fopen : filesystem := fun _ => Some (stream_of
    (ln "OpenVPN CLIENT LIST" ++ V1HEADER ++ ln "alice,1.2.3.4,4711,815" ++
     ln "ROUTING TABLE")) in
  let st := mkStatus "/var/run/openvpn.status" "openvpn.status" in
  new_naming_schema cfg = true /\
  exists o,
    @openvpn_read host128 cfg fopen st = Some o /\
    Forall (fun vl => vl_plugin_instance vl = "openvpn.status") (dispatched o).
Proof.
  cbv zeta. split; [reflexivity|].
  exact (@improved_naming_plugin_instance host128 (mkConfig true true true true)
           (fun _ => Some (stream_of
              (ln "OpenVPN CLIENT LIST" ++ V1HEADER ++ ln "alice,1.2.3.4,4711,815" ++
               ln "ROUTING TABLE")))
           (mkStatus "/var/run/openvpn.status" "openvpn.status") eq_refl).
Defined.

(** ** The counters of the single-endpoint format *)

(** One line, seen from one counter: a line of two fields whose first is
    the counter's key stores the converted second field, every other line
    leaves the counter as it is. *)
Lemma single_body_counter (a : single_acc) (buffer key : string)
  (get : single_acc -> Z) :
  In (key, get) single_counters ->
  exists a',
    single_body a buffer = Continue a' /\
    get a' = match openvpn_strsplit buffer 4 with
             | [k; v] => if String.eqb k key then atoll v else get a
             | _ => get a
             end.
Proof.
  intros Hin. unfold single_body.
  destruct (openvpn_strsplit buffer 4) as [|k [|v [|x l]]].
  - eexists; split; reflexivity.
  - eexists; split; reflexivity.
  - cbn [List.length Z.of_nat Pos.of_succ_nat Pos.succ Z.eqb Pos.eqb negb].
    change (field [k; v] 0) with k. change (field [k; v] 1) with v.
    unfold strcmp0. simpl in Hin.
    repeat (destruct Hin as [Hin|Hin];
            [inversion Hin; subst; clear Hin;
             repeat match goal with
                    | |- context [String.eqb k ?x] =>
                        destruct (String.eqb_spec k x);
                        [subst k; try discriminate|]
                    end;
             eexists; split; reflexivity|]).
    contradiction.
  - assert (E : negb (Z.of_nat (List.length (k :: v :: x :: l)) =? 2) = true).
    { apply negb_true_iff. apply Z.eqb_neq. cbn [List.length]. lia. }
    rewrite E. eexists; split; reflexivity.
Qed.

Lemma single_run_lines (ls : list string) : forall a,
  exists a',
    run_lines single_body ls a = Some a' /\
    forall key get, In (key, get) single_counters ->
      get a' = match last_value key ls with
               | Some v => atoll v
               | None => get a
               end.
Proof.
  induction ls as [|l ls IH]; intros a.
  - exists a. split; [reflexivity|]. intros; reflexivity.
  - destruct (single_body_continue a (c_str (ln l))) as [a1 B].
    destruct (IH a1) as (a' & R & G).
    exists a'. split; [cbn [run_lines]; rewrite B; exact R|].
    intros key get Hin. rewrite (G key get Hin). cbn [last_value].
    destruct (last_value key ls); [reflexivity|].
    destruct (single_body_counter a (c_str (ln l)) key get Hin) as (a2 & B2 & G2).
    rewrite B in B2. inversion B2; subst a2. rewrite G2.
    destruct (openvpn_strsplit (c_str (ln l)) 4) as [|k [|v [|x r]]];
      try reflexivity.
    destruct (String.eqb k key); reflexivity.
Qed.

(** X15: in a file of plain lines, each of the eight counters of
    [single_read] ends up as the converted value of the last line that
    carries its key as the first of exactly two fields, and as 0 when no
    line does: a later line replaces an earlier one, nothing is added up,
    and lines with other keys or another number of fields do not count. *)
Theorem single_read_last_value {host : Host} (cfg : config) (name : string)
  (ls : list string) (key : string) (get : single_acc -> Z) :
  forallb plain_line ls = true ->
  In (key, get) single_counters ->
  exists a,
    single_read cfg name (stream_of (concat_lines ls))
    = Some (single_finish cfg name a) /\
    get a = match last_value key ls with
            | Some v => atoll v
            | None => 0
            end.
Proof.
  intros Hplain Hin.
  destruct (single_run_lines ls single_init) as (a & R & G).
  exists a. split.
  - unfold single_read, stream_of.
    rewrite <- (string_app_nil_r (concat_lines ls)).
    rewrite (read_lines_plain single_body ls "" false false _ _ Hplain R).
    reflexivity.
  - rewrite (G key get Hin). destruct (last_value key ls); [reflexivity|].
    simpl in Hin.
    repeat (destruct Hin as [Hin|Hin]; [inversion Hin; reflexivity|]).
    contradiction.
Qed.

Lemma single_read_last_value_witness :
  let ls := ["Updated,Thu Jun 18 04:23:03 2015";
             "TUN/TAP read bytes,1500"; "TCP/UDP read bytes,1000";
             "TCP/UDP read bytes,1200"; "TCP/UDP read bytes,7,8"; "END"] in
  forallb plain_line ls = true /\
  In ("TCP/UDP read bytes", link_rx) single_counters /\
  last_value "TCP/UDP read bytes" ls = Some (ln "1200") /\
  exists a,
    @single_read host128 initial_config "vpn" (stream_of (concat_lines ls))
    = Some (@single_finish host128 initial_config "vpn" a) /\
    link_rx a = 1200.
Proof.
  cbv zeta. split; [reflexivity|].
  split; [right; right; left; reflexivity|].
  split; [reflexivity|].
  exact (@single_read_last_value host128 initial_config "vpn"
           ["Updated,Thu Jun 18 04:23:03 2015";
            "TUN/TAP read bytes,1500"; "TCP/UDP read bytes,1000";
            "TCP/UDP read bytes,1200"; "TCP/UDP read bytes,7,8"; "END"]
           "TCP/UDP read bytes" link_rx eq_refl
           (or_intror (or_intror (or_introl eq_refl)))).
Defined.

(** ** Configuration *)

Lemma strrchr_spec (s : string) (c : ascii) :
  match strrchr s c with
  | None => all_chars (fun x => negb (Ascii.eqb x c)) s = true
  | Some r =>
      exists pre after,
        s = pre ++ String c after /\ r = String c after /\
        all_chars (fun x => negb (Ascii.eqb x c)) after = true
  end.
Proof.
  induction s as [|x s IH]; [reflexivity|].
  cbn [strrchr]. destruct (strrchr s c) as [r|].
  - destruct IH as (pre & after & E1 & E2 & E3).
    exists (String x pre), after. subst s. repeat split; assumption.
  - destruct (Ascii.eqb_spec x c) as [E|N].
    + subst x. exists EmptyString, s. repeat split. exact IH.
    + cbn [all_chars]. apply Ascii.eqb_neq in N. rewrite N. exact IH.
Qed.

Section ConfigurationFacts.
Context {host : Host} {daemon : Daemon}.

(** X16: [openvpn_config] accepts the keys of [config_keys], in any
    letter case, and no others. A key that is not in the table is refused
    with -1 and changes nothing; a key of the table other than StatusFile
    returns 0 whatever its value is, may change the flags, and leaves the
    registered callbacks alone. *)
Theorem openvpn_config_keys (mem : allocation) (key value : string)
  (p : plugin_state) :
  if existsb (fun k => strcasecmp0 k key) config_keys then
    strcasecmp0 "StatusFile" key = true \/
    exists c, openvpn_config mem key value p
              = (0, mkPlugin c (plugin_callbacks p), [])
  else openvpn_config mem key value p = (-1, p, []).
Proof.
  unfold openvpn_config, config_keys. cbn [existsb].
  destruct (strcasecmp0 "StatusFile" key); [left; reflexivity|].
  destruct (strcasecmp0 "Compression" key),
           (strcasecmp0 "ImprovedNamingSchema" key),
           (strcasecmp0 "CollectCompression" key),
           (strcasecmp0 "CollectUserCount" key),
           (strcasecmp0 "CollectIndividualUsers" key);
    cbn [orb]; try (right; eexists; reflexivity); reflexivity.
Qed.

(** X17: a value that is neither a word for true nor a word for false does
    not leave a flag as it was: it sets the flag of its key back to the
    value the flag has at start (compression and the samples per client
    on, the improved naming schema and the user count off). The other
    flags keep their values. *)
Theorem openvpn_config_other_value (mem : allocation) (key value : string)
  (p : plugin_state) :
  IS_TRUE value = false ->
  IS_FALSE value = false ->
  strcasecmp0 "StatusFile" key = false ->
  existsb (fun k => strcasecmp0 k key) config_keys = true ->
  openvpn_config mem key value p
  = (0,
     mkPlugin
       (mkConfig
          (if strcasecmp0 "ImprovedNamingSchema" key
           then new_naming_schema initial_config
           else new_naming_schema (plugin_flags p))
          (if strcasecmp0 "CollectCompression" key || strcasecmp0 "Compression" key
           then collect_compression initial_config
           else collect_compression (plugin_flags p))
          (if strcasecmp0 "CollectUserCount" key
           then collect_user_count initial_config
           else collect_user_count (plugin_flags p))
          (if strcasecmp0 "CollectIndividualUsers" key
           then collect_individual_users initial_config
           else collect_individual_users (plugin_flags p)))
       (plugin_callbacks p),
     []).
Proof.
  intros HT HF HS Hkey. unfold openvpn_config, config_keys in *.
  cbn [existsb] in Hkey. rewrite HS in *. rewrite HT, HF.
  unfold strcasecmp0 in *.
  destruct (String.eqb_spec (lower_case "CollectCompression") (lower_case key)) as [E|_].
  { try rewrite <- E. reflexivity. }
  destruct (String.eqb_spec (lower_case "Compression") (lower_case key)) as [E|_].
  { try rewrite <- E. reflexivity. }
  destruct (String.eqb_spec (lower_case "ImprovedNamingSchema") (lower_case key)) as [E|_].
  { try rewrite <- E. reflexivity. }
  destruct (String.eqb_spec (lower_case "CollectUserCount") (lower_case key)) as [E|_].
  { try rewrite <- E. reflexivity. }
  destruct (String.eqb_spec (lower_case "CollectIndividualUsers") (lower_case key)) as [E|_].
  { try rewrite <- E. reflexivity. }
  discriminate Hkey.
Qed.

(** X18: a StatusFile directive, when memory is found, registers the file
    under the name that follows the last slash of its path (the whole path
    when it has no slash): the name has no slash in it and the path ends
    with it. The callback is registered as openvpn/ followed by that name,
    cut to the size of the buffer. The flags are not touched, and the
    directive fails, with -1 and a warning, only when the daemon answers
    EINVAL; any other answer of the daemon gives 0. *)
Theorem openvpn_config_status_file (mem : allocation) (key value : string)
  (p : plugin_state) :
  strcasecmp0 "StatusFile" key = true ->
  strdup_ok mem = true ->
  calloc_ok mem = true ->
  all_chars (fun c => negb (Ascii.eqb c "/")) (status_name_of value) = true /\
  (value = status_name_of value \/
   exists dir, value = dir ++ String "/" (status_name_of value)) /\
  exists status callbacks,
    plugin_register_complex_read "openvpn"
      (snprintf2 (3 * DATA_MAX_NAME_LEN) "openvpn/" (status_name_of value))
      (mkStatus value (status_name_of value)) (plugin_callbacks p)
    = (status, callbacks) /\
    openvpn_config mem key value p
    = (if status =? EINVAL then -1 else 0,
       mkPlugin (plugin_flags p) callbacks,
       if status =? EINVAL
       then [WARNING_filename_already_used (status_name_of value)] else []).
Proof.
  intros HS Hd Hc.
  pose proof (strrchr_spec value "/") as R.
  split; [|split].
  - unfold status_name_of. destruct (strrchr value "/") as [r|]; [|exact R].
    destruct R as (pre & after & _ & -> & Ha). exact Ha.
  - unfold status_name_of. destruct (strrchr value "/") as [r|]; [|left; reflexivity].
    destruct R as (pre & after & E & -> & _). right. exists pre. exact E.
  - unfold openvpn_config. rewrite HS, Hd, Hc. cbn [negb].
    destruct (plugin_register_complex_read "openvpn" _ _ (plugin_callbacks p))
      as [status callbacks] eqn:E.
    exists status, callbacks. split; [reflexivity|].
    destruct (status =? EINVAL); reflexivity.
Qed.

End ConfigurationFacts.

Lemma openvpn_config_other_value_witness :
  let p := @mkPlugin list_daemon (mkConfig true false true false) [] in
  @IS_TRUE list_daemon "maybe" = false /\
  @IS_FALSE list_daemon "maybe" = false /\
  strcasecmp0 "StatusFile" "collectcompression" = false /\
  existsb (fun k => strcasecmp0 k "collectcompression") config_keys = true /\
  @openvpn_config host128 list_daemon (mkAlloc true true)
    "collectcompression" "maybe" p
  = (0, @mkPlugin list_daemon (mkConfig true true true false) [], []).
Proof.
  cbv zeta. split; [reflexivity|]. split; [reflexivity|]. split; [reflexivity|].
  split; [reflexivity|].
  exact (@openvpn_config_other_value host128 list_daemon (mkAlloc true true)
           "collectcompression" "maybe"
           (@mkPlugin list_daemon (mkConfig true false true false) [])
           eq_refl eq_refl eq_refl eq_refl).
Defined.

Lemma openvpn_config_status_file_witness :
  let p := @mkPlugin list_daemon initial_config ["openvpn/server.status"] in
  strcasecmp0 "StatusFile" "statusfile" = true /\
  strdup_ok (mkAlloc true true) = true /\
  calloc_ok (mkAlloc true true) = true /\
  status_name_of "/var/run/openvpn/server.status" = "server.status" /\
  exists status callbacks,
    @openvpn_config host128 list_daemon (mkAlloc true true)
      "statusfile" "/var/run/openvpn/server.status" p
    = (if status =? @EINVAL list_daemon then -1 else 0,
       @mkPlugin list_daemon initial_config callbacks,
       if status =? @EINVAL list_daemon
       then [WARNING_filename_already_used "server.status"] else []).
Proof.
  cbv zeta. split; [reflexivity|]. split; [reflexivity|]. split; [reflexivity|].
  split; [reflexivity|].
  destruct (proj2 (proj2
    (@openvpn_config_status_file host128 list_daemon (mkAlloc true true)
       "statusfile" "/var/run/openvpn/server.status"
       (@mkPlugin list_daemon initial_config ["openvpn/server.status"])
       eq_refl eq_refl eq_refl))) as (status & callbacks & _ & E).
  exists status, callbacks. exact E.
Defined.

(** ** Properties of lines written out field by field *)

























Section LineByLine.
Context {St R : Type}.
Variable body : St -> string -> ctl St R.


End LineByLine.

Section FieldFiles.
Context {host : Host}.
Variable cfg : config.
Variable name : string.

(** *** The single-endpoint format *)





(** *** The version 1 list *)






(** *** The version 2 and 3 lists *)







End FieldFiles.




(** ** Numeric fields *)



